(** * The standalone SIP responder ([src/standalone.py])

    A shallow embedding of [AsyncSIPServerProtocol]: the connection object
    with its transport, its tag [did] and its [currentCall] handle, the
    dispatch of [data_received] on the SIP method, and the response
    construction of [create_response].

    Python values are modelled as the interpreter has them: a [str] is a
    sequence of Unicode code points, [bytes] is a sequence of octets, and
    [str.encode('utf-8')] / [bytes.decode('utf-8')] are the strict UTF-8
    codec.  Exceptions are explicit results; attribute state of [self] is
    threaded through a small state-and-exception monad in which a raised
    exception keeps the mutations made before it.

    The standard output is taken to be a UTF-8 text stream with the
    strict error handler, the interpreter's default: [print] raises
    UnicodeEncodeError on a text that UTF-8 cannot encode and nothing
    else.  The [print] of [create_response] is modelled, since it prints
    a text put together from the request and from the call.  The other
    [print] statements of the module print the peer address, a fixed
    text, the message of the parser's exception or a text that was just
    decoded from UTF-8; they are left out. *)

From Stdlib Require Import List NArith Arith Bool Lia.
From Stdlib Require Import Strings.String Strings.Ascii Strings.Byte.
Import ListNotations.

Set Implicit Arguments.

(** ** Python [str] and [bytes] *)

(** A [str]: its code points, in order. *)
Definition pystr := list N.

(** [bytes]: its octets. *)
Definition bytes := list byte.

(** A source literal; every character of the source file's literals is
    ASCII, so a literal's code points are its character codes. *)
Definition lit (s : string) : pystr :=
  map N_of_ascii (list_ascii_of_string s).

(** A bytes literal [b"..."]. *)
Definition blit (s : string) : bytes := list_byte_of_string s.

Definition CR : N := 13.
Definition LF : N := 10.

(** The literal ["\r\n"]. *)
Definition CRLF : pystr := [CR; LF].

(** The literal [b"\r\n\r\n"]. *)
Definition bCRLFCRLF : bytes := [x0d; x0a; x0d; x0a].

Definition pystr_eqb (a b : pystr) : bool :=
  if list_eq_dec N.eq_dec a b then true else false.

(** ** Exceptions *)

Inductive exn : Type :=
| TypeError
| KeyError
| IndexError
| ValueError
| NameError
| UnboundLocalError
| AttributeError
| UnicodeDecodeError
| UnicodeEncodeError
| CollaboratorError.   (* raised inside an imported collaborator *)

(** The result of evaluating an expression. *)
Inductive res (A : Type) : Type :=
| Ok (a : A)
| Raise (e : exn).
Arguments Ok {A} a.
Arguments Raise {A} e.

Definition rbind {A B} (r : res A) (k : A -> res B) : res B :=
  match r with
  | Ok a => k a
  | Raise e => Raise e
  end.

Declare Scope res_scope.
Delimit Scope res_scope with res.
Notation "x <- c ;; k" := (rbind c (fun x => k))
  (at level 61, c at next level, right associativity) : res_scope.

(** ** Sequence operations of the interpreter *)

Section Sequences.
Variable A : Type.
Variable eqb : A -> A -> bool.

(** [l.startswith(p)] *)
Fixpoint startswith (p l : list A) : bool :=
  match p, l with
  | [], _ => true
  | _ :: _, [] => false
  | a :: p', b :: l' => eqb a b && startswith p' l'
  end.

(** [l.split(sep)] for a non-empty [sep]: a left-to-right scan that cuts
    at every non-overlapping occurrence.  [skip] counts the elements of
    the occurrence just matched that are still to be dropped; [cur] is
    the piece being collected, reversed. *)
Fixpoint split_aux (sep : list A) (skip : nat) (cur l : list A)
  : list (list A) :=
  match l with
  | [] => [rev cur]
  | a :: l' =>
      match skip with
      | S k => split_aux sep k cur l'
      | O =>
          if startswith sep l
          then rev cur :: split_aux sep (List.length sep - 1) [] l'
          else split_aux sep 0 (a :: cur) l'
      end
  end.

Definition split (sep l : list A) : list (list A) := split_aux sep 0 [] l.

(** [sep.join(pieces)] *)
Fixpoint join (sep : list A) (pieces : list (list A)) : list A :=
  match pieces with
  | [] => []
  | [p] => p
  | p :: ps => p ++ sep ++ join sep ps
  end.
End Sequences.

Definition byte_eqb (a b : byte) : bool := Byte.eqb a b.

(** [data.split(sep)] on bytes and [s.split(sep)] on str. *)
Definition bytes_split : bytes -> bytes -> list bytes := split byte_eqb.
Definition str_split : pystr -> pystr -> list pystr := split N.eqb.
Definition str_startswith : pystr -> pystr -> bool := startswith N.eqb.
Definition str_join : pystr -> list pystr -> pystr := @join N.

(** ** The UTF-8 codec *)

Definition byte_of (n : N) : byte :=
  match Byte.of_N n with
  | Some b => b
  | None => x00
  end.

(** The encoding of one code point; a surrogate cannot be encoded
    ([UnicodeEncodeError]), and nothing above U+10FFFF is a code point. *)
Definition utf8_encode_cp (c : N) : res bytes :=
  if (c <? 128)%N then Ok [byte_of c]
  else if (c <? 2048)%N then
    Ok [byte_of (192 + c / 64); byte_of (128 + c mod 64)]
  else if (c <? 65536)%N then
    if ((55296 <=? c) && (c <=? 57343))%N then Raise UnicodeEncodeError
    else Ok [byte_of (224 + c / 4096); byte_of (128 + (c / 64) mod 64);
             byte_of (128 + c mod 64)]
  else if (c <? 1114112)%N then
    Ok [byte_of (240 + c / 262144); byte_of (128 + (c / 4096) mod 64);
        byte_of (128 + (c / 64) mod 64); byte_of (128 + c mod 64)]
  else Raise UnicodeEncodeError.

(** [s.encode('utf-8')] *)
Fixpoint utf8_encode (s : pystr) : res bytes :=
  match s with
  | [] => Ok []
  | c :: s' =>
      (b <- utf8_encode_cp c ;;
       bs <- utf8_encode s' ;;
       Ok (b ++ bs))%res
  end.

(** A continuation byte [10xxxxxx]. *)
Definition is_cont (b : byte) : bool :=
  let n := Byte.to_N b in ((128 <=? n) && (n <? 192))%N.

Definition cont_bits (b : byte) : N := (Byte.to_N b - 128)%N.

(** [b.decode('utf-8')]: strict, so overlong forms, surrogates, values
    above U+10FFFF, stray continuation bytes and truncated sequences all
    raise [UnicodeDecodeError]. *)
Fixpoint utf8_decode (l : bytes) : res pystr :=
  match l with
  | [] => Ok []
  | b0 :: r0 =>
      let n0 := Byte.to_N b0 in
      if (n0 <? 128)%N then
        (s <- utf8_decode r0 ;; Ok (n0 :: s))%res
      else if (n0 <? 192)%N then Raise UnicodeDecodeError
      else
        match r0 with
        | [] => Raise UnicodeDecodeError
        | b1 :: r1 =>
            if negb (is_cont b1) then Raise UnicodeDecodeError
            else if (n0 <? 224)%N then
              let c := ((n0 - 192) * 64 + cont_bits b1)%N in
              if (c <? 128)%N then Raise UnicodeDecodeError
              else (s <- utf8_decode r1 ;; Ok (c :: s))%res
            else
              match r1 with
              | [] => Raise UnicodeDecodeError
              | b2 :: r2 =>
                  if negb (is_cont b2) then Raise UnicodeDecodeError
                  else if (n0 <? 240)%N then
                    let c := ((n0 - 224) * 4096 + cont_bits b1 * 64
                              + cont_bits b2)%N in
                    if ((c <? 2048) || ((55296 <=? c) && (c <=? 57343)))%N
                    then Raise UnicodeDecodeError
                    else (s <- utf8_decode r2 ;; Ok (c :: s))%res
                  else
                    match r2 with
                    | [] => Raise UnicodeDecodeError
                    | b3 :: r3 =>
                        if negb (is_cont b3) then Raise UnicodeDecodeError
                        else if (n0 <? 248)%N then
                          let c := ((n0 - 240) * 262144
                                    + cont_bits b1 * 4096
                                    + cont_bits b2 * 64 + cont_bits b3)%N in
                          if ((c <? 65536) || (1114112 <=? c))%N
                          then Raise UnicodeDecodeError
                          else (s <- utf8_decode r3 ;; Ok (c :: s))%res
                        else Raise UnicodeDecodeError
                    end
              end
        end
  end.

(** ** [print] *)

(** [print(..., s)] on the standard output: the text is encoded as it is
    written, so a text that UTF-8 cannot encode raises
    UnicodeEncodeError. *)
Definition print (s : pystr) : res unit :=
  (_ <- utf8_encode s ;; Ok tt)%res.

(** A text that is printed and then returned. *)
Definition printed (s : pystr) : res pystr :=
  (_ <- print s ;; Ok s)%res.

(** ** [str(n)] for a length *)

(** The decimal digits of [n], least significant first, [fuel] bounding
    their number. *)
Fixpoint digits_rev (fuel : nat) (n : N) : list N :=
  match fuel with
  | O => []
  | S f =>
      let d := (48 + n mod 10)%N in
      if (n <? 10)%N then [d] else d :: digits_rev f (n / 10)
  end.

(** [str(n)] for a non-negative integer: [n] has at most [n + 1] digits,
    which bounds the recursion. *)
Definition str_of_nat (n : nat) : pystr :=
  rev (digits_rev (S n) (N.of_nat n)).

(** ** Python values of the parsed message *)

(** What the header mapping of a parsed message holds: [None], a [str],
    an [int], a list or tuple, or a [dict] with [str] keys (kept in
    insertion order). *)
Set Warnings "-register-all".
Inductive pyval : Type :=
| VNone
| VStr (s : pystr)
| VInt (n : N)
| VSeq (l : list pyval)
| VDict (d : list (pystr * pyval)).

Fixpoint dict_get (d : list (pystr * pyval)) (k : pystr) : option pyval :=
  match d with
  | [] => None
  | (k', v) :: d' => if pystr_eqb k' k then Some v else dict_get d' k
  end.

(** [d.get(k)]: [None] when the key is absent. *)
Definition get (d : list (pystr * pyval)) (k : pystr) : pyval :=
  match dict_get d k with
  | Some v => v
  | None => VNone
  end.

(** [v[0]] *)
Definition index0 (v : pyval) : res pyval :=
  match v with
  | VSeq (x :: _) => Ok x
  | VSeq [] => Raise IndexError
  | VStr (c :: _) => Ok (VStr [c])
  | VStr [] => Raise IndexError
  | VDict _ => Raise KeyError
  | VNone | VInt _ => Raise TypeError
  end.

(** [v[k]] for a [str] key [k] *)
Definition item (v : pyval) (k : pystr) : res pyval :=
  match v with
  | VDict d =>
      match dict_get d k with
      | Some x => Ok x
      | None => Raise KeyError
      end
  | _ => Raise TypeError
  end.

(** The right operand of ['...' + v]: concatenation to a [str] accepts
    only a [str]. *)
Definition as_str (v : pyval) : res pystr :=
  match v with
  | VStr s => Ok s
  | _ => Raise TypeError
  end.

Fixpoint all_str (l : list pyval) : res (list pystr) :=
  match l with
  | [] => Ok []
  | v :: l' =>
      (s <- as_str v ;;
       ss <- all_str l' ;;
       Ok (s :: ss))%res
  end.

(** [sep.join(v)]: [v] is iterated; a list or tuple must hold only [str],
    a [str] yields its characters, a [dict] its keys. *)
Definition join_val (sep : pystr) (v : pyval) : res pystr :=
  match v with
  | VSeq l => (ss <- all_str l ;; Ok (str_join sep ss))%res
  | VStr s => Ok (str_join sep (map (fun c => [c]) s))
  | VDict d => Ok (str_join sep (map fst d))
  | VNone | VInt _ => Raise TypeError
  end.

(** The structured view [SIPMessage(data)] gives of a request: the fields
    the module reads. *)
Record SIPMsg : Type := {
  method : pystr;
  headers : list (pystr * pyval)
}.

(** ** [generate_unique_string] *)

(** [string.ascii_letters + string.digits] *)
Definition characters : pystr :=
  lit "abcdefghijklmnopqrstuvwxyzABCDEFGHIJKLMNOPQRSTUVWXYZ0123456789".

(** [secrets.choice(seq)] returns [seq[k]] for a [k] below [len(seq)]
    drawn from the system's entropy; [draw i] is the raw value of the
    [i]-th draw. *)
Definition secrets_choice (seq : pystr) (raw : nat) : N :=
  nth (raw mod List.length seq) seq 0%N.

Definition generate_unique_string (draw : nat -> nat) (length : nat) : pystr :=
  let characters := characters in
  map (fun i => secrets_choice characters (draw i)) (seq 0 length).

(** ** The connection object *)

(** The transport of a connection: what has been written to it, in order,
    and whether [close()] was called. *)
Record Transport : Type := {
  written : list bytes;
  closed : bool
}.

Section Protocol.

(** *** Collaborators imported by the module *)

(** [aiortc.sdp.SessionDescription], [call.Call] and the values that
    [utils.get_ai_flavor] takes and returns. *)
Variables Sdp CallT Params Flavor : Type.

(** [SIPMessage(data)]: [None] when the constructor raises. *)
Variable SIPMessage : bytes -> option SIPMsg.

(** [SessionDescription.parse(text)]: [None] when it raises. *)
Variable SessionDescription_parse : pystr -> option Sdp.

(** The binding of the global name [params], if the module's namespace
    has one; the module itself never assigns it. *)
Variable params : option Params.

(** [get_ai_flavor(params)]: [None] when it raises. *)
Variable get_ai_flavor : Params -> option Flavor.

(** [Call(did, sdp, flavor)]: [None] when the constructor raises. *)
Variable Call : pystr -> Sdp -> Flavor -> option CallT.

(** [call.get_body()]: [None] when it raises or returns something that
    is not a [str] (which then raises inside [create_response], within
    the same [try]). *)
Variable get_body : CallT -> option pystr.

(** The configured advertised address. *)
Variable ADV_IP : pystr.

(** The attributes of [AsyncSIPServerProtocol] that the handlers use
    ([client_address] is only printed). *)
Record Protocol : Type := {
  transport : option Transport;
  did : pystr;
  currentCall : option CallT
}.

(** [__init__] *)
Definition init (draw : nat -> nat) : Protocol :=
  {| transport := None;
     did := generate_unique_string draw 8;
     currentCall := None |}.

(** [connection_made] *)
Definition connection_made (self : Protocol) (t : Transport) : Protocol :=
  {| transport := Some t; did := did self; currentCall := currentCall self |}.

(** *** [create_response] *)

Definition via0 (request : SIPMsg) (k : string) : res pyval :=
  (v <- index0 (get (headers request) (lit "Via")) ;; item v (lit k))%res.

Definition hdr (request : SIPMsg) (h k : string) : res pyval :=
  item (get (headers request) (lit h)) (lit k).

Definition response_lines (self : Protocol) (request : SIPMsg)
    (status_line body : pystr) : res (list pystr) :=
  (ty <- via0 request "type" ;;
   ty <- as_str ty ;;
   addr <- via0 request "address" ;;
   addr <- join_val (lit ":") addr ;;
   branch <- via0 request "branch" ;;
   branch <- as_str branch ;;
   to <- hdr request "To" "raw" ;;
   to <- as_str to ;;
   from <- hdr request "From" "raw" ;;
   from <- as_str from ;;
   callid <- as_str (get (headers request) (lit "Call-ID")) ;;
   check <- hdr request "CSeq" "check" ;;
   check <- as_str check ;;
   cmethod <- hdr request "CSeq" "method" ;;
   cmethod <- as_str cmethod ;;
   Ok [ lit "SIP/2.0 " ++ status_line;
        lit "Via: " ++ ty ++ lit " " ++ addr ++ lit ":branch=" ++ branch;
        lit "To: " ++ to ++ lit ";tag=" ++ did self;
        lit "From: " ++ from;
        lit "Call-ID: " ++ callid;
        lit "Contact:" ++ (lit " <sip:ai@" ++ ADV_IP ++ lit ";transport=tcp>");
        lit "CSeq: " ++ check ++ lit " " ++ cmethod;
        lit "Allow: INVITE, ACK, CANCEL, OPTIONS, BYE";
        lit "Content-Length: " ++ str_of_nat (List.length body);
        [];
        body ])%res.

Definition create_response (self : Protocol) (request : SIPMsg)
    (status_line body : pystr) : res pystr :=
  (response_lines <- response_lines self request status_line body ;;
   _ <- print (str_join CRLF response_lines) ;;
   Ok (str_join CRLF response_lines))%res.

(** *** Statements of a method: state and exceptions *)

(** A statement runs on [self] and either completes with a value or
    raises; the assignments made to [self] before a raise stay. *)
Definition M (A : Type) : Type := Protocol -> res A * Protocol.

Definition ret {A} (a : A) : M A := fun self => (Ok a, self).

Definition bind {A B} (m : M A) (k : A -> M B) : M B :=
  fun self =>
    match m self with
    | (Ok a, self') => k a self'
    | (Raise e, self') => (Raise e, self')
    end.

(** An expression that does not touch [self]. *)
Definition eval {A} (r : Protocol -> res A) : M A :=
  fun self => (r self, self).

(** [try: m  except Exception: h] *)
Definition try_except {A} (m : M A) (h : exn -> M A) : M A :=
  fun self =>
    match m self with
    | (Ok a, self') => (Ok a, self')
    | (Raise e, self') => h e self'
    end.

(** [self.transport.write(arg)]: the bound method is looked up before
    the argument is evaluated. *)
Definition transport_write (arg : res bytes) : M unit :=
  fun self =>
    match transport self with
    | None => (Raise AttributeError, self)
    | Some t =>
        match arg with
        | Raise e => (Raise e, self)
        | Ok b =>
            (Ok tt,
             {| transport := Some {| written := written t ++ [b];
                                     closed := closed t |};
                did := did self;
                currentCall := currentCall self |})
        end
    end.

(** [self.transport.close()] *)
Definition transport_close : M unit :=
  fun self =>
    match transport self with
    | None => (Raise AttributeError, self)
    | Some t =>
        (Ok tt,
         {| transport := Some {| written := written t; closed := true |};
            did := did self;
            currentCall := currentCall self |})
    end.

(** [self.currentCall = c] *)
Definition set_currentCall (c : CallT) : M unit :=
  fun self =>
    (Ok tt,
     {| transport := transport self; did := did self;
        currentCall := Some c |}).

(** A collaborator's call: its exception when it raises. *)
Definition extern {A} (o : option A) : res A :=
  match o with
  | Some a => Ok a
  | None => Raise CollaboratorError
  end.

(** The value of a name: [err] when it is unbound. *)
Definition lookup {A} (o : option A) (err : exn) : res A :=
  match o with
  | Some a => Ok a
  | None => Raise err
  end.


Declare Scope stmt_scope.
Delimit Scope stmt_scope with stmt.
Notation "x <- m ;; k" := (bind m (fun x => k))
  (at level 61, m at next level, right associativity) : stmt_scope.
Notation "m ;; k" := (bind m (fun _ => k))
  (at level 61, right associativity) : stmt_scope.

(** [a, b = l] *)
Definition unpack2 {A} (l : list A) : res (A * A) :=
  match l with
  | [a; b] => Ok (a, b)
  | _ => Raise ValueError
  end.

(** The offer text handed to the SDP parser: the lines of the body that do
    not start with [a=rtcp:], joined again. *)
Definition strip_rtcp (oldSDP : pystr) : pystr :=
  str_join [LF]
    (filter (fun line => negb (str_startswith (lit "a=rtcp:") line))
            (str_split [LF] oldSDP)).

(** *** [data_received] *)

(** The [try] body of the INVITE branch. *)
Definition invite_try (message : SIPMsg) (sdp : Sdp) : M pystr :=
  (c <- eval (fun self =>
               (p <- lookup params NameError ;;
                flavor <- extern (get_ai_flavor p) ;;
                extern (Call (did self) sdp flavor))%res) ;;
   set_currentCall c ;;
   sdp <- eval (fun self =>
                 (c <- lookup (currentCall self) AttributeError ;;
                  extern (get_body c))%res) ;;
   eval (fun self => create_response self message (lit "200 OK") sdp))%stmt.

(** The [if]/[elif] chain on [message.method]; the result is the binding
    of the local [response] when the chain is left ([None]: unbound). *)
Definition dispatch (data : bytes) (message : SIPMsg) : M (option pystr) :=
  (if pystr_eqb (method message) (lit "INVITE") then
     response <- eval (fun self =>
                        create_response self message (lit "100 Trying") []) ;;
     transport_write (utf8_encode response) ;;
     hb <- eval (fun _ => unpack2 (bytes_split bCRLFCRLF data)) ;;
     oldSDP <- eval (fun _ => utf8_decode (snd hb)) ;;
     sdp <- eval (fun _ =>
                   extern (SessionDescription_parse (strip_rtcp oldSDP))) ;;
     response <- try_except (invite_try message sdp)
                   (fun _ => eval (fun self =>
                      create_response self message
                        (lit "500 Internal Server Error") [])) ;;
     ret (Some response)
   else if pystr_eqb (method message) (lit "OPTIONS") then
     response <- eval (fun self =>
                        create_response self message (lit "200 OK") []) ;;
     ret (Some response)
   else if pystr_eqb (method message) (lit "BYE") then
     response <- eval (fun self =>
                        create_response self message (lit "200 OK") []) ;;
     ret (Some response)
   else if pystr_eqb (method message) (lit "ACK") then
     ret None
   else
     response <- eval (fun self =>
                        create_response self message
                          (lit "501 Not Implemented") []) ;;
     ret (Some response))%stmt.

Definition data_received (data : bytes) : M unit :=
  match SIPMessage data with
  | None => transport_close
  | Some message =>
      (response <- dispatch data message ;;
       transport_write (r <- lookup response UnboundLocalError ;;
                        utf8_encode r)%res)%stmt
  end.

(** What has been written on the connection so far. *)
Definition output (self : Protocol) : list bytes :=
  match transport self with
  | Some t => written t
  | None => []
  end.


(** *** Notions used to state the properties *)

(** The bytes put on the wire for a response: [create_response] and then
    [encode]. *)
Definition wire_of (self : Protocol) (request : SIPMsg)
    (status_line body : pystr) : res bytes :=
  (r <- create_response self request status_line body ;;
   utf8_encode r)%res.

(** The value of [Call(self.did, sdp, get_ai_flavor(params))], when its
    evaluation completes. *)
Definition create_call (tag : pystr) (sdp : Sdp) : option CallT :=
  match params with
  | None => None
  | Some p =>
      match get_ai_flavor p with
      | None => None
      | Some flavor => Call tag sdp flavor
      end
  end.

(** An INVITE that can be answered: its provisional response can be built
    from its headers and encoded, its data has exactly one blank-line
    boundary, and the body after it decodes to a session description that
    the parser accepts (as [sdp]). *)
Definition valid_invite (self : Protocol) (data : bytes)
    (message : SIPMsg) (sdp : Sdp) : Prop :=
  SIPMessage data = Some message /\
  method message = lit "INVITE" /\
  (exists w, wire_of self message (lit "100 Trying") [] = Ok w) /\
  exists hd body oldSDP,
    bytes_split bCRLFCRLF data = [hd; body] /\
    utf8_decode body = Ok oldSDP /\
    SessionDescription_parse (strip_rtcp oldSDP) = Some sdp.

(** The connection after one more message has been written. *)
Definition push (w : bytes) (self : Protocol) : Protocol :=
  match transport self with
  | Some t =>
      {| transport := Some {| written := written t ++ [w];
                              closed := closed t |};
         did := did self;
         currentCall := currentCall self |}
  | None => self
  end.

End Protocol.

Arguments transport {CallT} _.
Arguments did {CallT} _.
Arguments currentCall {CallT} _.
Arguments output {CallT} _.

(** ** Sample collaborators and requests

    Concrete stand-ins for the imported collaborators, used to run the
    handlers on concrete inputs. *)

Module Sample.

Definition bytes_eqb (a b : bytes) : bool :=
  Nat.eqb (List.length a) (List.length b) && startswith byte_eqb a b.

(** The wire form of a request: header lines, blank line, body. *)
Definition wire (lines : list string) (body : bytes) : bytes :=
  join [x0d; x0a] (map blit lines) ++ bCRLFCRLF ++ body.

Definition str (s : string) : pyval := VStr (lit s).

(** The parsed view of a request sent from 10.0.0.1 with one Via. *)
Definition request (m callid to_raw : string) : SIPMsg :=
  {| method := lit m;
     headers :=
       [ (lit "Via",
          VSeq [VDict [ (lit "type", str "SIP/2.0/TCP");
                        (lit "address", VSeq [str "10.0.0.1"; str "5060"]);
                        (lit "branch", str "z9hG4bK1") ]]);
         (lit "To", VDict [(lit "raw", str to_raw)]);
         (lit "From", VDict [(lit "raw", str "<sip:bob@10.0.0.1>;tag=f1")]);
         (lit "Call-ID", str callid);
         (lit "CSeq", VDict [ (lit "check", str "1");
                              (lit "method", str m) ]) ] |}.

Definition request_wire (m callid to_raw : string) (body : bytes) : bytes :=
  wire [ m ++ " sip:ai@10.0.0.2 SIP/2.0";
         "Via: SIP/2.0/TCP 10.0.0.1:5060;branch=z9hG4bK1";
         "To: " ++ to_raw;
         "From: <sip:bob@10.0.0.1>;tag=f1";
         "Call-ID: " ++ callid;
         "CSeq: 1 " ++ m ]%string body.

(** An SDP offer with one audio line. *)
Definition offer : bytes :=
  join [x0d; x0a]
    (map blit ["v=0"; "o=- 0 0 IN IP4 10.0.0.1"; "s=-"; "c=IN IP4 10.0.0.1";
               "t=0 0"; "m=audio 4000 RTP/AVP 0"; ""]%string).

(** A body whose version line holds no number. *)
Definition garbage : bytes := blit "v=abc".

(** An offer followed by a blank line and more bytes. *)
Definition offer_blank_line : bytes := offer ++ bCRLFCRLF ++ blit "x".

Definition to_plain : string := "<sip:ai@10.0.0.2>".
Definition to_tagged : string := "<sip:ai@10.0.0.2>;tag=remote1".

(** The requests the sample parser knows, with their parsed views. *)
Definition known : list (bytes * SIPMsg) :=
  [ (request_wire "INVITE" "abc123" to_plain offer,
     request "INVITE" "abc123" to_plain);
    (request_wire "INVITE" "def456" to_plain offer,
     request "INVITE" "def456" to_plain);
    (request_wire "INVITE" "abc123" to_plain garbage,
     request "INVITE" "abc123" to_plain);
    (request_wire "INVITE" "abc123" to_plain offer_blank_line,
     request "INVITE" "abc123" to_plain);
    (request_wire "BYE" "abc123" to_tagged [],
     request "BYE" "abc123" to_tagged);
    (request_wire "ACK" "abc123" to_tagged [],
     request "ACK" "abc123" to_tagged);
    (request_wire "OPTIONS" "opt1" to_plain [],
     request "OPTIONS" "opt1" to_plain) ].

Fixpoint assoc (t : list (bytes * SIPMsg)) (data : bytes) : option SIPMsg :=
  match t with
  | [] => None
  | (k, m) :: t' => if bytes_eqb k data then Some m else assoc t' data
  end.

Definition SIPMessage (data : bytes) : option SIPMsg := assoc known data.

(** [c.isspace()] for the blanks of ASCII. *)
Definition is_space (c : N) : bool :=
  ((c =? 32) || (9 <=? c) && (c <=? 13))%N.

Fixpoint lstrip (s : pystr) : pystr :=
  match s with
  | c :: s' => if is_space c then lstrip s' else s
  | [] => []
  end.

(** [s.strip()] *)
Definition strip (s : pystr) : pystr := rev (lstrip (rev (lstrip s))).

(** A non-empty run of ASCII digits, which [int] accepts; [int] also
    accepts blanks around the number, a sign, single underscores between
    digits and other decimal digits, which no text of this file uses. *)
Definition is_int (s : pystr) : bool :=
  negb (Nat.eqb (List.length s) 0)
  && forallb (fun c => (48 <=? c) && (c <=? 57))%N s.

(** The session-level lines, up to the first [m=] line: a [v=] line is
    read by [int(line.strip()[2:])], which raises ValueError unless the
    rest of the line is a number. *)
Fixpoint session_ok (lines : list pystr) : bool :=
  match lines with
  | [] => true
  | l :: ls =>
      if str_startswith (lit "m=") l then true
      else if str_startswith (lit "v=") l
           then is_int (skipn 2 (strip l)) && session_ok ls
           else session_ok ls
  end.

(** A stand-in for [aiortc.sdp.SessionDescription.parse] that keeps the
    parser's rule for the version line and examines nothing else: a text
    is rejected only when a [v=] line before the first [m=] line holds no
    number.  The lines are cut at ["\n"]; the line ends that are left
    are stripped before the number is read, as the parser does. *)
Definition SessionDescription_parse (text : pystr) : option pystr :=
  if session_ok (str_split [LF] text) then Some text else None.

(** A call records the tag and the offer it was created with. *)
Record CallT : Type := { call_tag : pystr; call_offer : pystr }.

Definition Call (tag sdp : pystr) (flavor : unit) : option CallT :=
  Some {| call_tag := tag; call_offer := sdp |}.

Definition get_ai_flavor (p : unit) : option unit := Some tt.

(** The answer of a call: a fixed session description. *)
Definition answer : pystr :=
  str_join CRLF (map lit ["v=0"; "o=- 0 0 IN IP4 10.0.0.2"; "s=-";
                          "c=IN IP4 10.0.0.2"; "t=0 0";
                          "m=audio 1234 RTP/AVP 0"; ""]%string).

Definition get_body (c : CallT) : option pystr := Some answer.

Definition ADV_IP : pystr := lit "10.0.0.2".

(** The handler with the sample collaborators; [params] is the binding
    of the global name. *)
Definition receive (params : option unit) (data : bytes)
  : M CallT unit :=
  data_received SIPMessage SessionDescription_parse params get_ai_flavor
    Call get_body ADV_IP data.

(** A connected protocol object whose tag is [tag]. *)
Definition connected (tag : string) : Protocol CallT :=
  {| transport := Some {| written := []; closed := false |};
     did := lit tag;
     currentCall := None |}.

End Sample.

(** ** Texts that can be encoded *)

(** A text that [encode] accepts. *)
Definition encodable (s : pystr) : Prop := exists w, utf8_encode s = Ok w.

Definition is_ascii (s : pystr) : Prop := Forall (fun c => (c < 128)%N) s.

(** The decidable form, by which a literal is checked. *)
Definition is_asciib (s : pystr) : bool := forallb (fun c => (c <? 128)%N) s.

(** A letter or a digit. *)
Definition is_alnum (c : N) : bool :=
  ((97 <=? c) && (c <=? 122) || (65 <=? c) && (c <=? 90)
   || (48 <=? c) && (c <=? 57))%N.

(** ** The shape of a response *)

(** What [create_response] reads from a request. *)
Record Echo : Type := {
  e_type : pystr;
  e_address : pystr;
  e_branch : pystr;
  e_to : pystr;
  e_from : pystr;
  e_callid : pystr;
  e_check : pystr;
  e_method : pystr
}.

(** The header reads of [create_response], in its order of evaluation. *)
Definition echo (request : SIPMsg) : res Echo :=
  (ty <- via0 request "type" ;;
   ty <- as_str ty ;;
   addr <- via0 request "address" ;;
   addr <- join_val (lit ":") addr ;;
   branch <- via0 request "branch" ;;
   branch <- as_str branch ;;
   to <- hdr request "To" "raw" ;;
   to <- as_str to ;;
   from <- hdr request "From" "raw" ;;
   from <- as_str from ;;
   callid <- as_str (get (headers request) (lit "Call-ID")) ;;
   check <- hdr request "CSeq" "check" ;;
   check <- as_str check ;;
   cmethod <- hdr request "CSeq" "method" ;;
   cmethod <- as_str cmethod ;;
   Ok {| e_type := ty; e_address := addr; e_branch := branch; e_to := to;
         e_from := from; e_callid := callid; e_check := check;
         e_method := cmethod |})%res.

Definition via_line (e : Echo) : pystr :=
  lit "Via: " ++ e_type e ++ lit " " ++ e_address e ++ lit ":branch="
    ++ e_branch e.

Definition to_line (tag : pystr) (e : Echo) : pystr :=
  lit "To: " ++ e_to e ++ lit ";tag=" ++ tag.

Definition content_length_line (body : pystr) : pystr :=
  lit "Content-Length: " ++ str_of_nat (List.length body).

(** The lines of a response, given what was read from the request. *)
Definition render (ADV_IP tag : pystr) (e : Echo) (status_line body : pystr)
  : list pystr :=
  [ lit "SIP/2.0 " ++ status_line;
    via_line e;
    to_line tag e;
    lit "From: " ++ e_from e;
    lit "Call-ID: " ++ e_callid e;
    lit "Contact:" ++ (lit " <sip:ai@" ++ ADV_IP ++ lit ";transport=tcp>");
    lit "CSeq: " ++ e_check e ++ lit " " ++ e_method e;
    lit "Allow: INVITE, ACK, CANCEL, OPTIONS, BYE";
    content_length_line body;
    [];
    body ].

(** The seven header lines between the status line and Content-Length,
    each with its line end. *)
Definition echoed_headers (ADV_IP tag : pystr) (e : Echo) : pystr :=
  via_line e ++ CRLF ++
  to_line tag e ++ CRLF ++
  (lit "From: " ++ e_from e) ++ CRLF ++
  (lit "Call-ID: " ++ e_callid e) ++ CRLF ++
  (lit "Contact:" ++ (lit " <sip:ai@" ++ ADV_IP ++ lit ";transport=tcp>"))
    ++ CRLF ++
  (lit "CSeq: " ++ e_check e ++ lit " " ++ e_method e) ++ CRLF ++
  lit "Allow: INVITE, ACK, CANCEL, OPTIONS, BYE" ++ CRLF.

(** The text of a response. *)
Definition response_text (ADV_IP tag : pystr) (e : Echo)
    (status_line body : pystr) : pystr :=
  (lit "SIP/2.0 " ++ status_line) ++ CRLF ++
  echoed_headers ADV_IP tag e ++
  content_length_line body ++ CRLF ++ CRLF ++ body.

(** ** Reading a response back from the wire

    The reading a peer makes of a written response, after the framing of
    the interface description: the header block ends at the first blank
    line, the body is everything after it, and the declared length is the
    decimal number of the Content-Length field. *)

(** The lines of a message, for display. *)
Definition text (w : bytes) : list string :=
  map string_of_list_byte (bytes_split [x0d; x0a] w).

Definition header_block (w : bytes) : bytes :=
  hd [] (bytes_split bCRLFCRLF w).

Definition wire_body (w : bytes) : bytes :=
  join bCRLFCRLF (tl (bytes_split bCRLFCRLF w)).

(** The value of a decimal numeral; [None] when a byte is not a digit. *)
Fixpoint decimal (acc : N) (l : bytes) : option N :=
  match l with
  | [] => Some acc
  | b :: l' =>
      let d := Byte.to_N b in
      if ((48 <=? d) && (d <=? 57))%N
      then decimal (acc * 10 + (d - 48)) l'
      else None
  end.

Fixpoint field (name : bytes) (lines : list bytes) : option bytes :=
  match lines with
  | [] => None
  | l :: ls =>
      if startswith byte_eqb name l
      then Some (skipn (List.length name) l)
      else field name ls
  end.

Definition declared_length (w : bytes) : option N :=
  match field (blit "Content-Length: ")
              (bytes_split [x0d; x0a] (header_block w)) with
  | Some v => decimal 0 v
  | None => None
  end.


(** ** Runs on the sample requests *)

Module Run.
Import Sample.

Definition tag : string := "Ab3dE9xZ".

(** A connected protocol object; nothing written yet. *)
Definition fresh : Protocol CallT := connected tag.

Definition invite_abc : bytes := request_wire "INVITE" "abc123" to_plain offer.
Definition invite_def : bytes := request_wire "INVITE" "def456" to_plain offer.
Definition invite_garbage : bytes :=
  request_wire "INVITE" "abc123" to_plain garbage.
Definition invite_blank_line : bytes :=
  request_wire "INVITE" "abc123" to_plain offer_blank_line.
Definition bye_abc : bytes := request_wire "BYE" "abc123" to_tagged [].
Definition ack_abc : bytes := request_wire "ACK" "abc123" to_tagged [].
Definition options_opt : bytes := request_wire "OPTIONS" "opt1" to_plain [].

(** The lines of a response with no body to a request of method [m]. *)
Definition reply (status m callid to_raw : string) : list string :=
  [ "SIP/2.0 " ++ status;
    "Via: SIP/2.0/TCP 10.0.0.1:5060:branch=z9hG4bK1";
    "To: " ++ to_raw ++ ";tag=" ++ tag;
    "From: <sip:bob@10.0.0.1>;tag=f1";
    "Call-ID: " ++ callid;
    "Contact: <sip:ai@10.0.0.2;transport=tcp>";
    "CSeq: 1 " ++ m;
    "Allow: INVITE, ACK, CANCEL, OPTIONS, BYE";
    "Content-Length: 0";
    "";
    "" ]%string.

(** The connection after the INVITE for [abc123] was answered with 200 OK
    ([params] bound, the call created). *)
Definition established : Protocol CallT :=
  snd (receive (Some tt) invite_abc fresh).

(** A session description whose session name is not ASCII. *)
Definition answer_cafe : pystr := lit "s=caf" ++ [233%N].

(** The parsed views of the INVITE and of the BYE for [abc123]. *)
Definition invite_request : SIPMsg := request "INVITE" "abc123" to_plain.
Definition bye_request : SIPMsg := request "BYE" "abc123" to_tagged.

(** The offer as the handler hands it to the SDP parser. *)
Definition offer_text : pystr :=
  str_join CRLF
    (map lit ["v=0"; "o=- 0 0 IN IP4 10.0.0.1"; "s=-"; "c=IN IP4 10.0.0.1";
              "t=0 0"; "m=audio 4000 RTP/AVP 0"; ""]%string).

(** The lines of the 200 OK response to an INVITE, with the answer of the
    call as its body. *)
Definition answered (callid : string) : list string :=
  [ "SIP/2.0 200 OK";
    "Via: SIP/2.0/TCP 10.0.0.1:5060:branch=z9hG4bK1";
    "To: " ++ to_plain ++ ";tag=" ++ tag;
    "From: <sip:bob@10.0.0.1>;tag=f1";
    "Call-ID: " ++ callid;
    "Contact: <sip:ai@10.0.0.2;transport=tcp>";
    "CSeq: 1 INVITE";
    "Allow: INVITE, ACK, CANCEL, OPTIONS, BYE";
    "Content-Length: 85";
    "";
    "v=0"; "o=- 0 0 IN IP4 10.0.0.2"; "s=-"; "c=IN IP4 10.0.0.2"; "t=0 0";
    "m=audio 1234 RTP/AVP 0"; "" ]%string.

(** The bytes of a message given by its lines. *)
Definition encoded (lines : list string) : bytes :=
  join [x0d; x0a] (map blit lines).

(** The 200 OK response to the BYE for [abc123], on the wire. *)
Definition bye_ok : bytes := encoded (reply "200 OK" "BYE" "abc123" to_tagged).


End Run.

(** ** More of the module, and notions for its properties *)

Section Offer.

Variables Sdp CallT : Type.
Variable SessionDescription_parse : pystr -> option Sdp.
Variable ADV_IP : pystr.

(** [generate_sdp]: the [c=] line is an f-string without a placeholder,
    so it holds the name [ADV_IP] itself. *)
Definition generate_sdp (self : Protocol CallT) : pystr :=
  let sdp :=
    [ lit "v=0";
      lit "o=- 0 0 IN IP4 " ++ ADV_IP;
      lit "s=AI Voice Connector";
      lit "c=IN IP4 ADV_IP";
      lit "t=0 0";
      lit "m=audio 1234 RTP/AVP 0";
      lit "a=rtpmap:0 PCMU/8000";
      lit "a=sendrecv";
      [] ] in
  str_join CRLF sdp.

(** The statements of the INVITE branch between the 100 Trying response
    and the [try] block: the unpacking of the split data, the decoding of
    the body and the call of the SDP parser on the filtered text. *)
Definition offer_of (data : bytes) : res Sdp :=
  (hb <- unpack2 (bytes_split bCRLFCRLF data) ;;
   oldSDP <- utf8_decode (snd hb) ;;
   extern (SessionDescription_parse (strip_rtcp oldSDP)))%res.

End Offer.

Section Lifetime.

Variables Sdp CallT Params Flavor : Type.
Variable SIPMessage : bytes -> option SIPMsg.
Variable SessionDescription_parse : pystr -> option Sdp.
Variable params : option Params.
Variable get_ai_flavor : Params -> option Flavor.
Variable Call : pystr -> Sdp -> Flavor -> option CallT.
Variable get_body : CallT -> option pystr.
Variable ADV_IP : pystr.

(** The connection object after [data_received] was called on each of
    [datas] in turn, however each call ended. *)
Definition received_all (datas : list bytes) (self : Protocol CallT)
  : Protocol CallT :=
  fold_left
    (fun st d =>
       snd (data_received SIPMessage SessionDescription_parse params
              get_ai_flavor Call get_body ADV_IP d st))
    datas self.

End Lifetime.

(** The exceptions of a header lookup. *)
Definition lookup_error (e : exn) : Prop :=
  e = TypeError \/ e = KeyError \/ e = IndexError.

(** The test of the comprehension in the INVITE branch: the line does not
    start with [a=rtcp:]. *)
Definition not_rtcp (line : pystr) : bool :=
  negb (str_startswith (lit "a=rtcp:") line).

(** [sep] occurs in [l]. *)
Definition occurs {A} (sep l : list A) : Prop :=
  exists pre post, l = pre ++ sep ++ post.

(** The position of [c] in [l]. *)
Fixpoint index_of (c : N) (l : pystr) : nat :=
  match l with
  | [] => 0
  | x :: l' => if N.eqb x c then 0 else S (index_of c l')
  end.

Section Scan.

Variable A : Type.
Variable eqb : A -> A -> bool.

(** In a scan for [sep] that has collected [cur] (reversed) and has [l]
    ahead, the separator does not start at any position of the piece
    being collected. *)
Definition unmatched (sep cur l : list A) : Prop :=
  forall i, i < List.length cur ->
            startswith eqb sep (skipn i (rev cur ++ l)) = false.

End Scan.

(** Every value read from the request is ASCII. *)
Definition ascii_echo (e : Echo) : Prop :=
  is_ascii (e_type e) /\ is_ascii (e_address e) /\ is_ascii (e_branch e) /\
  is_ascii (e_to e) /\ is_ascii (e_from e) /\ is_ascii (e_callid e) /\
  is_ascii (e_check e) /\ is_ascii (e_method e).

(** ** More sample requests *)

Module Probe.
Import Sample.

(** A REGISTER request. *)
Definition register : bytes := request_wire "REGISTER" "reg1" to_plain [].

(** An INVITE whose body is the single byte [0xE9], which is not UTF-8. *)
Definition invite_latin1 : bytes :=
  request_wire "INVITE" "abc123" to_plain [xe9].

(** An OPTIONS request without a Via header, and its parsed view. *)
Definition options_no_via : bytes :=
  wire [ "OPTIONS sip:ai@10.0.0.2 SIP/2.0";
         "To: <sip:ai@10.0.0.2>";
         "From: <sip:bob@10.0.0.1>;tag=f1";
         "Call-ID: opt2";
         "CSeq: 2 OPTIONS" ]%string [].

Definition no_via : SIPMsg :=
  {| method := lit "OPTIONS";
     headers :=
       [ (lit "To", VDict [(lit "raw", str "<sip:ai@10.0.0.2>")]);
         (lit "From", VDict [(lit "raw", str "<sip:bob@10.0.0.1>;tag=f1")]);
         (lit "Call-ID", str "opt2");
         (lit "CSeq", VDict [ (lit "check", str "2");
                              (lit "method", str "OPTIONS") ]) ] |}.

(** The requests of this module, with their parsed views. *)
Definition known : list (bytes * SIPMsg) :=
  [ (register, request "REGISTER" "reg1" to_plain);
    (invite_latin1, request "INVITE" "abc123" to_plain);
    (options_no_via, no_via) ].

(** A parser that knows the requests of this module besides the sample
    ones. *)
Definition SIPMessage (data : bytes) : option SIPMsg :=
  match assoc known data with
  | Some m => Some m
  | None => Sample.SIPMessage data
  end.

(** A call whose [get_body] raises. *)
Definition get_body (c : CallT) : option pystr := None.


(** The handler with the parser of this module; [get_body] as given. *)
Definition receive (get_body : CallT -> option pystr) (data : bytes)
  : M CallT unit :=
  data_received SIPMessage SessionDescription_parse (Some tt) get_ai_flavor
    Call get_body ADV_IP data.

(** Bytes that are no SIP message. *)
Definition noise : bytes := blit "hello".

(** A protocol object as [__init__] leaves it, before [connection_made];
    the draws are 0, 1, 2, ... *)
Definition unconnected : Protocol CallT := init CallT (fun i => i).

(** The lines of the 200 OK response to the INVITE for [abc123] whose
    body is [Run.answer_cafe]. *)
Definition cafe_lines : list pystr :=
  map lit [ "SIP/2.0 200 OK";
            "Via: SIP/2.0/TCP 10.0.0.1:5060:branch=z9hG4bK1";
            "To: <sip:ai@10.0.0.2>;tag=Ab3dE9xZ";
            "From: <sip:bob@10.0.0.1>;tag=f1";
            "Call-ID: abc123";
            "Contact: <sip:ai@10.0.0.2;transport=tcp>";
            "CSeq: 1 INVITE";
            "Allow: INVITE, ACK, CANCEL, OPTIONS, BYE";
            "Content-Length: 6";
            "" ]%string ++ [Run.answer_cafe].

(** The bytes of [Run.answer_cafe] on the wire. *)
Definition cafe_bytes : bytes := blit "s=caf" ++ [xc3; xa9].

(** A request line alone, with no blank line after it. *)
Definition no_blank_line : bytes := blit "INVITE sip:ai@10.0.0.2 SIP/2.0".

End Probe.

(** * Properties *)

Lemma pystr_eqb_eq a b : pystr_eqb a b = true <-> a = b.
Proof.
  unfold pystr_eqb. destruct (list_eq_dec N.eq_dec a b); split; congruence.
Qed.

Lemma pystr_eqb_refl a : pystr_eqb a a = true.
Proof. now apply pystr_eqb_eq. Qed.

(** ** UTF-8 encoding *)

Lemma utf8_encode_app (a b : pystr) :
  utf8_encode (a ++ b) =
  (x <- utf8_encode a ;; y <- utf8_encode b ;; Ok (x ++ y))%res.
Proof.
  induction a as [|c a IH]; simpl.
  - destruct (utf8_encode b); reflexivity.
  - destruct (utf8_encode_cp c) as [x|e]; simpl; [|reflexivity].
    rewrite IH.
    destruct (utf8_encode a) as [xa|e]; simpl; [|reflexivity].
    destruct (utf8_encode b) as [xb|e]; simpl; [|reflexivity].
    now rewrite app_assoc.
Qed.

Lemma encodable_app a b : encodable (a ++ b) <-> encodable a /\ encodable b.
Proof.
  unfold encodable. rewrite utf8_encode_app. split.
  - intros [w H].
    destruct (utf8_encode a) as [x|]; simpl in H; [|discriminate].
    destruct (utf8_encode b) as [y|]; simpl in H; [|discriminate].
    split; eexists; reflexivity.
  - intros [[x Hx] [y Hy]]. rewrite Hx, Hy. simpl. eexists; reflexivity.
Qed.

(** On ASCII text the encoding has one byte per character. *)
Lemma utf8_encode_ascii s : is_ascii s -> utf8_encode s = Ok (map byte_of s).
Proof.
  induction 1 as [|c s Hc _ IH]; simpl; [reflexivity|].
  unfold utf8_encode_cp.
  apply N.ltb_lt in Hc. rewrite Hc. simpl. now rewrite IH.
Qed.

Lemma is_ascii_encodable s : is_ascii s -> encodable s.
Proof. intros H. eexists. now apply utf8_encode_ascii. Qed.

Lemma digits_rev_ascii fuel n : is_ascii (digits_rev fuel n).
Proof.
  revert n. induction fuel as [|f IH]; intros n; simpl; [constructor|].
  assert (48 + n mod 10 < 128)%N.
  { pose proof (N.mod_upper_bound n 10). lia. }
  destruct (n <? 10)%N; repeat constructor; auto. apply IH.
Qed.

Lemma str_of_nat_ascii n : is_ascii (str_of_nat n).
Proof.
  unfold str_of_nat, is_ascii. apply Forall_rev. apply digits_rev_ascii.
Qed.

Lemma is_asciib_spec s : is_asciib s = true -> is_ascii s.
Proof.
  unfold is_asciib, is_ascii. rewrite forallb_forall, Forall_forall.
  intros H c Hc. apply N.ltb_lt. now apply H.
Qed.

Lemma is_ascii_app a b : is_ascii a -> is_ascii b -> is_ascii (a ++ b).
Proof. unfold is_ascii. intros. apply Forall_app. now split. Qed.

(** Every code point takes at least one byte. *)
Lemma utf8_encode_length s w :
  utf8_encode s = Ok w -> List.length s <= List.length w.
Proof.
  revert w. induction s as [|c s IH]; intros w; simpl.
  - intros [= <-]. simpl. lia.
  - destruct (utf8_encode_cp c) as [x|] eqn:Hc; simpl; [|discriminate].
    destruct (utf8_encode s) as [y|]; simpl; [|discriminate].
    intros [= <-]. rewrite length_app. specialize (IH y eq_refl).
    assert (1 <= List.length x); [|lia].
    unfold utf8_encode_cp in Hc.
    repeat match type of Hc with
           | (if ?b then _ else _) = _ => destruct b
           end; inversion Hc; simpl; lia.
Qed.

Ltac step_binds :=
  repeat match goal with
         | |- context [rbind ?x _] =>
             destruct x; simpl rbind; try reflexivity
         end.

Section Responses.

Variable CallT : Type.
Variable ADV_IP : pystr.

Lemma response_lines_echo (self : Protocol CallT) request status_line body :
  response_lines ADV_IP self request status_line body =
  (e <- echo request ;;
   Ok (render ADV_IP (did self) e status_line body))%res.
Proof. unfold response_lines, echo. step_binds. Qed.

Lemma join_render tag e status_line body :
  str_join CRLF (render ADV_IP tag e status_line body) =
  response_text ADV_IP tag e status_line body.
Proof.
  unfold render, response_text, echoed_headers, str_join.
  cbn [join]. repeat rewrite <- app_assoc. reflexivity.
Qed.

Lemma create_response_echo (self : Protocol CallT) request status_line body :
  create_response ADV_IP self request status_line body =
  (e <- echo request ;;
   printed (response_text ADV_IP (did self) e status_line body))%res.
Proof.
  unfold create_response. rewrite response_lines_echo.
  destruct (echo request); cbn [rbind]; [|reflexivity].
  now rewrite join_render.
Qed.

(** The bytes of a response are the encoding of its text: the text that
    was printed can be encoded, and a text that cannot be encoded was not
    printed. *)
Lemma wire_of_echo (self : Protocol CallT) request status_line body :
  wire_of ADV_IP self request status_line body =
  (e <- echo request ;;
   utf8_encode (response_text ADV_IP (did self) e status_line body))%res.
Proof.
  unfold wire_of. rewrite create_response_echo.
  destruct (echo request) as [e|]; cbn [rbind]; [|reflexivity].
  unfold printed, print.
  destruct (utf8_encode
              (response_text ADV_IP (did self) e status_line body)) eqn:E;
    cbn [rbind]; [exact E | reflexivity].
Qed.

(** Whether a response can be built and encoded depends on the request
    and the tag, and beyond them only on the status line and the body
    being encodable. *)
Lemma wire_of_other (self : Protocol CallT) request s b w s' b' :
  wire_of ADV_IP self request s b = Ok w ->
  encodable s' -> encodable b' ->
  exists w', wire_of ADV_IP self request s' b' = Ok w'.
Proof.
  rewrite !wire_of_echo.
  destruct (echo request) as [e|]; simpl; [|discriminate].
  intros H Hs Hb.
  assert (He : encodable (response_text ADV_IP (did self) e s b))
    by (eexists; eassumption).
  change (encodable (response_text ADV_IP (did self) e s' b')).
  unfold response_text, content_length_line in *.
  repeat rewrite encodable_app in He.
  repeat rewrite encodable_app.
  repeat match goal with
         | |- _ /\ _ => split
         end; try tauto;
    try (apply is_ascii_encodable; apply str_of_nat_ascii).
Qed.

End Responses.




Lemma printed_ok s w : utf8_encode s = Ok w -> printed s = Ok s.
Proof. unfold printed, print. now intros ->. Qed.

Lemma printed_raise s e : utf8_encode s = Raise e -> printed s = Raise e.
Proof. unfold printed, print. now intros ->. Qed.

(** ** The handler *)

Lemma pystr_eqb_neq a b : a <> b -> pystr_eqb a b = false.
Proof.
  intros H. destruct (pystr_eqb a b) eqn:E; [|reflexivity].
  apply pystr_eqb_eq in E. contradiction.
Qed.

Lemma encodable_lit_ascii s : is_asciib s = true -> encodable s.
Proof. intros H. now apply is_ascii_encodable, is_asciib_spec. Qed.

Ltac unfold_handler :=
  unfold data_received, dispatch, invite_try, bind, eval, ret,
    try_except, transport_write, transport_close, set_currentCall,
    lookup, extern, unpack2.

(** A scrutinee with no test nested inside it. *)
Ltac atomic x :=
  lazymatch x with
  | context [match _ with _ => _ end] => fail
  | context [rbind _ _] => fail
  | _ => idtac
  end.

Ltac handler_simpl :=
  cbn [rbind fst snd transport did currentCall output written closed].

(** Equations between results left by the steps are turned into equations
    between their values. *)
Ltac merge_results :=
  repeat match goal with
         | H : Ok _ = Ok _ |- _ => injection H as H; subst
         | H : Some _ = Some _ |- _ => injection H as H; subst
         end;
  try match goal with
      | H : Raise _ = Ok _ |- _ => discriminate H
      | H : Ok _ = Raise _ |- _ => discriminate H
      | H : None = Some _ |- _ => discriminate H
      | H : Some _ = None |- _ => discriminate H
      end.

(** One step along a path of the handler: the next test is decided. *)
Ltac handler_step :=
  first
    [ rewrite create_response_echo
    | match goal with
      | |- context [printed ?s] =>
          let E := fresh "E" in
          destruct (utf8_encode s) eqn:E;
          [ rewrite (printed_ok _ E) | rewrite (printed_raise _ E) ]
      end
    | match goal with
      | |- context [pystr_eqb ?a ?b] => destruct (pystr_eqb a b) eqn:?
      end
    | match goal with
      | |- context [rbind ?x _] => atomic x; destruct x eqn:?
      | |- context [match ?x with _ => _ end] => atomic x; destruct x eqn:?
      end ];
  handler_simpl.

Section Handler.

Variables Sdp CallT Params Flavor : Type.
Variable SIPMessage : bytes -> option SIPMsg.
Variable SessionDescription_parse : pystr -> option Sdp.
Variable params : option Params.
Variable get_ai_flavor : Params -> option Flavor.
Variable Call : pystr -> Sdp -> Flavor -> option CallT.
Variable get_body : CallT -> option pystr.
Variable ADV_IP : pystr.

Local Abbreviation receive :=
  (data_received SIPMessage SessionDescription_parse params get_ai_flavor
     Call get_body ADV_IP).

(** No request changes the tag of the connection. *)
Lemma did_stable data self : did (snd (receive data self)) = did self.
Proof.
  unfold_handler. repeat handler_step; reflexivity.
Qed.

(** C10. A request whose method is not INVITE (OPTIONS, BYE, ACK or any
    other method) leaves the tag [did] and the [currentCall] handle of the
    connection as they were, whether the handler completes or raises:
    only the INVITE branch assigns [currentCall]. *)
Theorem other_methods_keep_dialog_state data self message :
  SIPMessage data = Some message ->
  method message <> lit "INVITE" ->
  did (snd (receive data self)) = did self /\
  currentCall (snd (receive data self)) = currentCall self.
Proof.
  intros Hparse Hm. split; [apply did_stable|].
  unfold_handler.
  rewrite Hparse, (pystr_eqb_neq Hm).
  repeat handler_step; reflexivity.
Qed.







(** Every message the handler writes is a response to the parsed request
    built with the tag of the connection. *)
Lemma receive_writes_tagged data self :
  exists new,
    output (snd (receive data self)) = output self ++ new /\
    forall w, In w new ->
      exists message e status body,
        SIPMessage data = Some message /\
        echo message = Ok e /\
        utf8_encode (response_text ADV_IP (did self) e status body) = Ok w.
Proof.
  unfold output. unfold_handler.
  repeat handler_step; merge_results;
    first
      [ exists []; split;
        [ try rewrite app_nil_r; reflexivity | intros ? [] ]
      | eexists [_]; split;
        [ reflexivity
        | intros ? [<-|[]]; do 4 eexists;
          split; [reflexivity | split; [eassumption|eassumption]] ]
      | eexists [_; _]; split;
        [ rewrite <- app_assoc; reflexivity
        | intros ? [<-|[<-|[]]]; do 4 eexists;
          (split; [reflexivity | split; [eassumption|eassumption]]) ] ].
Qed.

(** ACK on a connected transport: the chain leaves [response] unbound,
    so the final write raises and nothing is written. *)
Lemma receive_ack data self message t :
  transport self = Some t ->
  SIPMessage data = Some message ->
  method message = lit "ACK" ->
  receive data self = (Raise UnboundLocalError, self).
Proof.
  intros Ht Hparse Hm. unfold_handler.
  rewrite Hparse, Hm.
  replace (pystr_eqb (lit "ACK") (lit "INVITE")) with false by reflexivity.
  replace (pystr_eqb (lit "ACK") (lit "OPTIONS")) with false by reflexivity.
  replace (pystr_eqb (lit "ACK") (lit "BYE")) with false by reflexivity.
  rewrite pystr_eqb_refl, Ht. reflexivity.
Qed.

(** An INVITE whose data does not split into exactly two pieces at the
    blank-line separator: the unpacking raises after the 100 Trying
    response was written, and no final response follows. *)
Lemma receive_invite_unpack_fails data self message t w100 :
  transport self = Some t ->
  SIPMessage data = Some message ->
  method message = lit "INVITE" ->
  wire_of ADV_IP self message (lit "100 Trying") [] = Ok w100 ->
  unpack2 (bytes_split bCRLFCRLF data) = Raise ValueError ->
  receive data self = (Raise ValueError, push w100 self).
Proof.
  intros Ht Hparse Hm Hw Hsplit.
  rewrite wire_of_echo in Hw.
  destruct (echo message) as [e|] eqn:He; [|discriminate].
  cbn [rbind] in Hw.
  unfold push. unfold data_received, dispatch, bind, eval,
    transport_write.
  rewrite Hparse, Hm, pystr_eqb_refl.
  rewrite create_response_echo, He. handler_simpl.
  rewrite (printed_ok _ Hw). handler_simpl.
  rewrite Ht, Hw. handler_simpl. rewrite Hsplit. reflexivity.
Qed.

(** An INVITE whose body the SDP parser rejects: the parser's exception
    leaves the handler after the 100 Trying response was written, and no
    final response follows. *)
Lemma receive_invite_sdp_fails data self message t w100 hd body oldSDP :
  transport self = Some t ->
  SIPMessage data = Some message ->
  method message = lit "INVITE" ->
  wire_of ADV_IP self message (lit "100 Trying") [] = Ok w100 ->
  bytes_split bCRLFCRLF data = [hd; body] ->
  utf8_decode body = Ok oldSDP ->
  SessionDescription_parse (strip_rtcp oldSDP) = None ->
  receive data self = (Raise CollaboratorError, push w100 self).
Proof.
  intros Ht Hparse Hm Hw Hsplit Hdec Hsdp.
  rewrite wire_of_echo in Hw.
  destruct (echo message) as [e|] eqn:He; [|discriminate].
  cbn [rbind] in Hw.
  unfold push. unfold_handler.
  rewrite Hparse, Hm, pystr_eqb_refl.
  rewrite create_response_echo, He. handler_simpl.
  rewrite (printed_ok _ Hw). handler_simpl.
  rewrite Ht, Hw. handler_simpl.
  rewrite Hsplit. cbn [snd]. rewrite Hdec, Hsdp. reflexivity.
Qed.

End Handler.

(** ** The tag of a connection *)

Lemma secrets_choice_in seq raw :
  seq <> [] -> In (secrets_choice seq raw) seq.
Proof.
  intros Hne. unfold secrets_choice. apply nth_In.
  apply Nat.mod_upper_bound. now destruct seq.
Qed.

Lemma generate_unique_string_length draw n :
  List.length (generate_unique_string draw n) = n.
Proof. unfold generate_unique_string. now rewrite length_map, length_seq. Qed.

Lemma generate_unique_string_alnum draw n :
  forallb is_alnum (generate_unique_string draw n) = true.
Proof.
  unfold generate_unique_string. apply forallb_forall. intros c Hc.
  apply in_map_iff in Hc. destruct Hc as [i [<- _]].
  assert (Hall : forallb is_alnum characters = true) by reflexivity.
  rewrite forallb_forall in Hall. apply Hall.
  apply secrets_choice_in. discriminate.
Qed.

Section Tag.

Variables Sdp CallT Params Flavor : Type.
Variable SIPMessage : bytes -> option SIPMsg.
Variable SessionDescription_parse : pystr -> option Sdp.
Variable params : option Params.
Variable get_ai_flavor : Params -> option Flavor.
Variable Call : pystr -> Sdp -> Flavor -> option CallT.
Variable get_body : CallT -> option pystr.
Variable ADV_IP : pystr.

Local Abbreviation receive :=
  (data_received SIPMessage SessionDescription_parse params get_ai_flavor
     Call get_body ADV_IP).

(** C6 (amended). The tag is generated once per connection, when the
    protocol object is constructed, as eight letters and digits;
    [connection_made] and every call of [data_received], whatever the
    request and whether it completes or raises, leave it as it is; and
    every message written is a response whose To line ends in [;tag=]
    followed by that tag.  Nothing compares it with the tag of another
    connection, and the dialogs of one connection share it. *)
Theorem tag_fixed_per_connection :
  (forall draw,
     List.length (did (init CallT draw)) = 8 /\
     forallb is_alnum (did (init CallT draw)) = true) /\
  (forall (self : Protocol CallT) t,
     did (connection_made self t) = did self) /\
  (forall data self, did (snd (receive data self)) = did self) /\
  (forall data self,
     exists new,
       output (snd (receive data self)) = output self ++ new /\
       forall w, In w new ->
         exists e status body,
           let lines := render ADV_IP (did self) e status body in
           utf8_encode (str_join CRLF lines) = Ok w /\
           nth_error lines 2 =
           Some (lit "To: " ++ e_to e ++ lit ";tag=" ++ did self)).
Proof.
  split; [|split; [|split]].
  - intros draw. split.
    + apply generate_unique_string_length.
    + apply generate_unique_string_alnum.
  - reflexivity.
  - intros data self. apply did_stable.
  - intros data self.
    destruct (receive_writes_tagged SIPMessage SessionDescription_parse
                params get_ai_flavor Call get_body ADV_IP data self)
      as [new [Hout Hnew]].
    exists new. split; [exact Hout|].
    intros w Hw. destruct (Hnew w Hw) as (m & e & status & body & _ & _ & Henc).
    exists e, status, body. cbv zeta. rewrite join_render.
    split; [exact Henc | reflexivity].
Qed.

End Tag.

(** ** The echoed headers *)

Lemma as_str_inv v s : as_str v = Ok s -> v = VStr s.
Proof. destruct v; simpl; congruence. Qed.

Lemma echo_to request e :
  echo request = Ok e -> hdr request "To" "raw" = Ok (VStr (e_to e)).
Proof.
  unfold echo. intros H.
  repeat match type of H with
         | rbind ?x _ = _ =>
             let E := fresh "E" in
             destruct x eqn:E; cbn [rbind] in H; [|discriminate H]
         end.
  injection H as <-. cbn [e_to].
  repeat match goal with
         | E : as_str _ = Ok _ |- _ => apply as_str_inv in E
         end.
  congruence.
Qed.

Section Headers.

Variable CallT : Type.
Variable ADV_IP : pystr.

(** C7 (amended). Whenever [create_response] builds a response, its To
    line is the [raw] value of the request's To header followed by
    [;tag=] and the tag of the connection, whatever that value holds: the
    tag is assigned when the connection object is constructed, so it is
    always there, and the value is not inspected for a tag of its own. *)
Theorem to_header_always_tagged (self : Protocol CallT) request status body ls :
  response_lines ADV_IP self request status body = Ok ls ->
  exists raw,
    hdr request "To" "raw" = Ok (VStr raw) /\
    nth_error ls 2 = Some (lit "To: " ++ raw ++ lit ";tag=" ++ did self).
Proof.
  rewrite response_lines_echo.
  destruct (echo request) as [e|] eqn:He; cbn [rbind]; [|discriminate].
  intros [= <-]. exists (e_to e). split; [now apply echo_to | reflexivity].
Qed.

(** The Content-Length line of every response states the number of code
    points of the body. *)
Lemma content_length_counts_code_points
    (self : Protocol CallT) request status body ls :
  response_lines ADV_IP self request status body = Ok ls ->
  nth_error ls 8 =
  Some (lit "Content-Length: " ++ str_of_nat (List.length body)).
Proof.
  rewrite response_lines_echo.
  destruct (echo request) as [e|]; cbn [rbind]; [|discriminate].
  now intros [= <-].
Qed.

(** The Via line of every response joins the address and the branch with
    [:branch=]. *)
Lemma via_line_of_response (self : Protocol CallT) request status body ls :
  response_lines ADV_IP self request status body = Ok ls ->
  exists e,
    echo request = Ok e /\
    nth_error ls 1 =
    Some (lit "Via: " ++ e_type e ++ lit " " ++ e_address e
            ++ lit ":branch=" ++ e_branch e).
Proof.
  rewrite response_lines_echo.
  destruct (echo request) as [e|]; cbn [rbind]; [|discriminate].
  intros [= <-]. exists e. split; reflexivity.
Qed.

End Headers.

(** On an ASCII body the number of code points is the number of bytes on
    the wire. *)
Lemma ascii_body_length body w :
  is_ascii body -> utf8_encode body = Ok w ->
  List.length w = List.length body.
Proof.
  intros Ha Hw. rewrite (utf8_encode_ascii Ha) in Hw.
  injection Hw as <-. apply length_map.
Qed.

(** ** Runs of the handler on the sample requests *)

(** C2. An ACK that the parser accepts does not complete: no branch binds
    [response] for it, so the final [self.transport.write(response...)]
    raises UnboundLocalError out of [data_received]; nothing is written
    and the connection object is as before. *)
Theorem ack_raises_unbound_local :
  Sample.SIPMessage Run.ack_abc =
    Some (Sample.request "ACK" "abc123" Sample.to_tagged) /\
  forall p,
    Sample.receive p Run.ack_abc Run.fresh =
      (Raise UnboundLocalError, Run.fresh).
Proof.
  split; [vm_compute; reflexivity|].
  intros [[]|]; vm_compute; reflexivity.
Qed.

(** C4. An INVITE whose body is [v=abc], which the SDP parser rejects
    when it reads the version: the parser is called before the [try]
    block, so its exception leaves [data_received]; the only message
    written is the 100 Trying response, no 500 response follows, and no
    call is stored. *)
Theorem sdp_failure_leaves_handler :
  wire_body Run.invite_garbage = blit "v=abc" /\
  Sample.SessionDescription_parse (strip_rtcp (lit "v=abc")) = None /\
  forall p,
    fst (Sample.receive p Run.invite_garbage Run.fresh) =
      Raise CollaboratorError /\
    map text (output (snd (Sample.receive p Run.invite_garbage Run.fresh))) =
      [Run.reply "100 Trying" "INVITE" "abc123" Sample.to_plain] /\
    currentCall (snd (Sample.receive p Run.invite_garbage Run.fresh)) = None.
Proof.
  split; [vm_compute; reflexivity|]. split; [vm_compute; reflexivity|].
  intros [[]|]; vm_compute; repeat split.
Qed.

(** C8. An INVITE whose body holds a further blank line: [split] cuts the
    data at every blank line, here into three pieces, and unpacking them
    into [headers, body] raises ValueError after the 100 Trying response
    was written; the body is never formed. *)
Theorem second_blank_line_raises :
  List.length (bytes_split bCRLFCRLF Run.invite_blank_line) = 3 /\
  forall p,
    fst (Sample.receive p Run.invite_blank_line Run.fresh) =
      Raise ValueError /\
    map text
      (output (snd (Sample.receive p Run.invite_blank_line Run.fresh))) =
      [Run.reply "100 Trying" "INVITE" "abc123" Sample.to_plain].
Proof.
  split; [vm_compute; reflexivity|].
  intros [[]|]; vm_compute; repeat split.
Qed.

(** C5. A 200 OK response whose body is [s=caf] followed by U+00E9: its
    Content-Length field says 6, the number of code points, while the
    body on the wire is the 7 bytes of its UTF-8 encoding. *)
Theorem content_length_of_non_ascii_body :
  exists w,
    wire_of Sample.ADV_IP Run.fresh Run.invite_request (lit "200 OK")
      Run.answer_cafe = Ok w /\
    declared_length w = Some 6%N /\
    utf8_encode Run.answer_cafe = Ok (wire_body w) /\
    List.length (wire_body w) = 7.
Proof.
  eexists. split; [vm_compute; reflexivity|]. vm_compute. repeat split.
Qed.

(** C9. The request's Via line carries its branch as the parameter
    [;branch=]; the Via line of the response joins the address and the
    branch with [:branch=] instead, so the line is not the request's. *)
Theorem via_branch_after_colon :
  nth_error (text Run.invite_abc) 1 =
    Some "Via: SIP/2.0/TCP 10.0.0.1:5060;branch=z9hG4bK1"%string /\
  exists w,
    wire_of Sample.ADV_IP Run.fresh Run.invite_request (lit "100 Trying") []
      = Ok w /\
    nth_error (text w) 1 =
      Some "Via: SIP/2.0/TCP 10.0.0.1:5060:branch=z9hG4bK1"%string.
Proof.
  split; [vm_compute; reflexivity|].
  eexists. split; vm_compute; reflexivity.
Qed.



(** C6. Two INVITEs with the Call-IDs [abc123] and [def456] on one
    connection: both are answered 200 OK with the same tag on the To
    line, and both calls are created with that tag. *)
Lemma two_dialogs_share_one_tag :
  let first := Run.established in
  let second := snd (Sample.receive (Some tt) Run.invite_def first) in
  map text (output second) =
    [ Run.reply "100 Trying" "INVITE" "abc123" Sample.to_plain;
      Run.answered "abc123";
      Run.reply "100 Trying" "INVITE" "def456" Sample.to_plain;
      Run.answered "def456" ] /\
  option_map Sample.call_tag (currentCall first) = Some (lit Run.tag) /\
  option_map Sample.call_tag (currentCall second) = Some (lit Run.tag).
Proof. vm_compute. repeat split. Qed.

(** C7. A request whose To header already carries [;tag=remote1]: the To
    line of the response carries that tag and, appended after it, the tag
    of the connection. *)
Lemma tag_appended_after_remote_tag :
  hdr Run.bye_request "To" "raw" =
    Ok (VStr (lit "<sip:ai@10.0.0.2>;tag=remote1")) /\
  exists ls,
    response_lines Sample.ADV_IP Run.fresh Run.bye_request (lit "200 OK") []
      = Ok ls /\
    nth_error ls 2 =
      Some (lit "To: <sip:ai@10.0.0.2>;tag=remote1;tag=Ab3dE9xZ").
Proof.
  split; [vm_compute; reflexivity|].
  eexists. split; vm_compute; reflexivity.
Qed.

(** ** Instances on the sample requests *)

(** The BYE for [abc123] on the established connection leaves the tag and
    the stored call as they were. *)
Lemma bye_keeps_dialog_state :
  Sample.SIPMessage Run.bye_abc = Some Run.bye_request /\
  method Run.bye_request <> lit "INVITE" /\
  did (snd (Sample.receive (Some tt) Run.bye_abc Run.established)) =
    did Run.established /\
  currentCall (snd (Sample.receive (Some tt) Run.bye_abc Run.established)) =
    currentCall Run.established.
Proof.
  assert (Hparse : Sample.SIPMessage Run.bye_abc = Some Run.bye_request)
    by (vm_compute; reflexivity).
  assert (Hm : method Run.bye_request <> lit "INVITE")
    by (vm_compute; discriminate).
  split; [exact Hparse|]. split; [exact Hm|].
  exact (other_methods_keep_dialog_state Sample.SIPMessage
           Sample.SessionDescription_parse (Some tt) Sample.get_ai_flavor
           Sample.Call Sample.get_body Sample.ADV_IP Run.bye_abc
           Run.established Hparse Hm).
Defined.



(** The To line of the 200 OK response to the BYE for [abc123]. *)
Lemma bye_abc_to_line :
  response_lines Sample.ADV_IP Run.fresh Run.bye_request (lit "200 OK") []
    = Ok (map lit (Run.reply "200 OK" "BYE" "abc123" Sample.to_tagged)) /\
  exists raw,
    hdr Run.bye_request "To" "raw" = Ok (VStr raw) /\
    nth_error (map lit (Run.reply "200 OK" "BYE" "abc123" Sample.to_tagged))
      2 = Some (lit "To: " ++ raw ++ lit ";tag=" ++ did Run.fresh).
Proof.
  assert (Hls : response_lines Sample.ADV_IP Run.fresh Run.bye_request
                  (lit "200 OK") []
                = Ok (map lit (Run.reply "200 OK" "BYE" "abc123"
                                 Sample.to_tagged)))
    by (vm_compute; reflexivity).
  split; [exact Hls|].
  exact (to_header_always_tagged Sample.ADV_IP Run.fresh Run.bye_request
           (lit "200 OK") [] Hls).
Defined.

(** ** [split] and [join] *)

Section SplitJoin.

Variable A : Type.
Variable eqb : A -> A -> bool.
Hypothesis eqb_eq : forall a b, eqb a b = true <-> a = b.

Lemma startswith_app p l : startswith eqb p (p ++ l) = true.
Proof.
  induction p as [|a p IH]; simpl; [reflexivity|].
  rewrite IH, andb_true_r. now apply eqb_eq.
Qed.

Lemma startswith_inv p l :
  startswith eqb p l = true -> l = p ++ skipn (List.length p) l.
Proof.
  revert l. induction p as [|a p IH]; intros l; simpl; [reflexivity|].
  destruct l as [|b l]; [discriminate|].
  intros H. apply andb_true_iff in H. destruct H as [Hab Hp].
  apply eqb_eq in Hab. subst b. simpl. f_equal. now apply IH.
Qed.

(** Dropping the rest of a matched separator is dropping a prefix. *)
Lemma split_aux_skip sep k cur l :
  split_aux eqb sep k cur l = split_aux eqb sep 0 cur (skipn k l).
Proof.
  revert k. induction l as [|a l IH]; intros k.
  - now destruct k.
  - destruct k as [|k]; [reflexivity|]. simpl. apply IH.
Qed.

Lemma split_aux_nonempty sep k cur l : split_aux eqb sep k cur l <> [].
Proof.
  revert k cur. induction l as [|a l IH]; intros k cur; simpl.
  - discriminate.
  - destruct k; [|apply IH].
    destruct (startswith eqb sep (a :: l)); [discriminate | apply IH].
Qed.

Lemma join_cons sep (p : list A) ps :
  ps <> [] -> join sep (p :: ps) = p ++ sep ++ join sep ps.
Proof. destruct ps; [congruence | reflexivity]. Qed.

(** Joining the pieces of a split gives the sequence back. *)
Lemma join_split_aux sep n : sep <> [] -> forall l cur,
  List.length l <= n ->
  join sep (split_aux eqb sep 0 cur l) = rev cur ++ l.
Proof.
  intros Hsep. induction n as [|n IH]; intros l cur Hl.
  - destruct l; [|simpl in Hl; lia]. simpl. now rewrite app_nil_r.
  - destruct l as [|a l]; [simpl; now rewrite app_nil_r|].
    cbn [split_aux].
    destruct (startswith eqb sep (a :: l)) eqn:Hs.
    + rewrite split_aux_skip.
      rewrite join_cons by apply split_aux_nonempty.
      apply startswith_inv in Hs.
      destruct sep as [|s sep']; [congruence|].
      simpl in Hs. injection Hs as Ha Hl'.
      cbn [List.length]. rewrite Nat.sub_succ, Nat.sub_0_r.
      rewrite IH.
      * simpl rev. simpl app at 2. rewrite Hl' at 2. subst s.
        reflexivity.
      * rewrite length_skipn. simpl in Hl. lia.
    + rewrite IH by (simpl in Hl; lia).
      simpl. now rewrite <- app_assoc.
Qed.

Lemma join_split sep l : sep <> [] -> join sep (split eqb sep l) = l.
Proof.
  intros Hsep. unfold split.
  erewrite join_split_aux; [reflexivity | exact Hsep | apply le_n].
Qed.

(** A piece that does not hold the first element of the separator is
    scanned without a cut. *)
Lemma split_aux_free a sep' x rest cur :
  ~ In a x ->
  split_aux eqb (a :: sep') 0 cur (x ++ rest) =
  split_aux eqb (a :: sep') 0 (rev x ++ cur) rest.
Proof.
  revert cur. induction x as [|c x IH]; intros cur Hx; [reflexivity|].
  simpl app. cbn [split_aux startswith].
  assert (Hac : eqb a c = false).
  { destruct (eqb a c) eqn:E; [|reflexivity].
    apply eqb_eq in E. subst c. exfalso. apply Hx. now left. }
  rewrite Hac. cbn [andb].
  rewrite IH by (intros Hin; apply Hx; now right).
  simpl rev. now rewrite <- app_assoc.
Qed.

(** Splitting a join gives the pieces back, when no piece holds the first
    element of the separator. *)
Lemma split_join a sep' xs :
  xs <> [] -> Forall (fun x => ~ In a x) xs ->
  split eqb (a :: sep') (join (a :: sep') xs) = xs.
Proof.
  intros Hne Hall. unfold split.
  enough (H : forall cur,
             split_aux eqb (a :: sep') 0 cur (join (a :: sep') xs) =
             match xs with
             | [] => []
             | x :: xs' => (rev cur ++ x) :: xs'
             end).
  { rewrite H. destruct xs; [congruence | reflexivity]. }
  induction xs as [|x xs IH]; [congruence|].
  intros cur. inversion Hall as [|? ? Hx Hxs]; subst.
  destruct xs as [|y ys].
  - cbn [join]. rewrite <- (app_nil_r x) at 1.
    rewrite split_aux_free by exact Hx.
    simpl. now rewrite rev_app_distr, rev_involutive.
  - rewrite join_cons by discriminate.
    rewrite split_aux_free by exact Hx.
    remember (join (a :: sep') (y :: ys)) as tl eqn:Htl.
    simpl app. cbn [split_aux].
    change (startswith eqb (a :: sep') (a :: sep' ++ tl))
      with (startswith eqb (a :: sep') ((a :: sep') ++ tl)).
    rewrite startswith_app.
    rewrite split_aux_skip. cbn [List.length].
    rewrite Nat.sub_succ, Nat.sub_0_r, skipn_app, skipn_all, Nat.sub_diag.
    simpl skipn. simpl app. subst tl.
    rewrite IH by (discriminate || exact Hxs).
    now rewrite rev_app_distr, rev_involutive.
Qed.

(** No piece of a split at a one-element separator holds that element. *)
Lemma split_aux_single_free a cur l :
  ~ In a cur ->
  Forall (fun p => ~ In a p) (split_aux eqb [a] 0 cur l).
Proof.
  revert cur. induction l as [|c l IH]; intros cur Hcur.
  - simpl. constructor; [|constructor]. now rewrite <- in_rev.
  - cbn [split_aux startswith List.length]. rewrite andb_true_r.
    destruct (eqb a c) eqn:E.
    + constructor; [now rewrite <- in_rev|].
      simpl. apply IH. intros [].
    + apply IH. intros [Hc|Hc]; [|now apply Hcur].
      subst c. assert (eqb a a = true) by now apply eqb_eq. congruence.
Qed.

Lemma split_single_free a l :
  Forall (fun p => ~ In a p) (split eqb [a] l).
Proof. apply split_aux_single_free. intros []. Qed.

End SplitJoin.

Section Dispatch.

Variables Sdp CallT Params Flavor : Type.
Variable SIPMessage : bytes -> option SIPMsg.
Variable SessionDescription_parse : pystr -> option Sdp.
Variable params : option Params.
Variable get_ai_flavor : Params -> option Flavor.
Variable Call : pystr -> Sdp -> Flavor -> option CallT.
Variable get_body : CallT -> option pystr.
Variable ADV_IP : pystr.

Local Abbreviation receive :=
  (data_received SIPMessage SessionDescription_parse params get_ai_flavor
     Call get_body ADV_IP).

(** X1. Data that [SIPMessage] rejects: on a connected transport the
    handler completes, calls [close()] on the transport and writes no
    response; the tag and the stored call stay. *)
Theorem unparsable_data_closes_transport data (self : Protocol CallT) t :
  transport self = Some t ->
  SIPMessage data = None ->
  fst (receive data self) = Ok tt /\
  transport (snd (receive data self)) =
    Some {| written := written t; closed := true |} /\
  did (snd (receive data self)) = did self /\
  currentCall (snd (receive data self)) = currentCall self.
Proof.
  intros Ht Hparse. unfold data_received, transport_close.
  rewrite Hparse, Ht. repeat split.
Qed.

(** A request answered by one response with an empty body. *)
Lemma receive_single data (self : Protocol CallT) message t status w :
  transport self = Some t ->
  SIPMessage data = Some message ->
  dispatch SessionDescription_parse params get_ai_flavor Call get_body
    ADV_IP data message self =
    (rbind (create_response ADV_IP self message status [])
       (fun r => Ok (Some r)), self) ->
  wire_of ADV_IP self message status [] = Ok w ->
  receive data self = (Ok tt, push w self).
Proof.
  intros Ht Hparse Hd Hw.
  unfold wire_of in Hw. unfold data_received, bind. rewrite Hparse, Hd.
  destruct (create_response ADV_IP self message status []) as [r|];
    [|discriminate].
  cbn [rbind] in *. unfold transport_write, lookup, push.
  rewrite Ht. cbn [rbind]. rewrite Hw. reflexivity.
Qed.

(** X2. OPTIONS on a connected transport is answered with exactly one
    200 OK with an empty body; nothing else changes. *)
Theorem options_replies_ok data (self : Protocol CallT) message t w :
  transport self = Some t ->
  SIPMessage data = Some message ->
  method message = lit "OPTIONS" ->
  wire_of ADV_IP self message (lit "200 OK") [] = Ok w ->
  receive data self = (Ok tt, push w self).
Proof.
  intros Ht Hparse Hm Hw. eapply receive_single; eauto.
  unfold dispatch, bind, eval, ret. rewrite Hm.
  replace (pystr_eqb (lit "OPTIONS") (lit "INVITE")) with false
    by reflexivity.
  rewrite pystr_eqb_refl.
  now destruct (create_response ADV_IP self message (lit "200 OK") []).
Qed.

(** X3. A request whose method is none of INVITE, OPTIONS, BYE and ACK
    is answered, on a connected transport, with exactly one
    501 Not Implemented with an empty body; nothing else changes. *)
Theorem unknown_method_not_implemented
    data (self : Protocol CallT) message t w :
  transport self = Some t ->
  SIPMessage data = Some message ->
  ~ In (method message)
       [lit "INVITE"; lit "OPTIONS"; lit "BYE"; lit "ACK"] ->
  wire_of ADV_IP self message (lit "501 Not Implemented") [] = Ok w ->
  receive data self = (Ok tt, push w self).
Proof.
  intros Ht Hparse Hm Hw. eapply receive_single; eauto.
  unfold dispatch, bind, eval, ret.
  rewrite !pystr_eqb_neq by (intros E; apply Hm; rewrite E; simpl; tauto).
  now destruct (create_response ADV_IP self message
                  (lit "501 Not Implemented") []).
Qed.

(** X4. ACK is never answered: for every parsed ACK the handler raises
    and leaves the connection object as it was, nothing written: on a
    connected transport the exception is UnboundLocalError (the local
    [response] was never bound), before [connection_made] it is
    AttributeError (the write method is looked up first). *)
Theorem ack_always_raises data (self : Protocol CallT) message :
  SIPMessage data = Some message ->
  method message = lit "ACK" ->
  receive data self =
    (Raise (match transport self with
            | Some _ => UnboundLocalError
            | None => AttributeError
            end), self).
Proof.
  intros Hparse Hm. unfold_handler. rewrite Hparse, Hm.
  replace (pystr_eqb (lit "ACK") (lit "INVITE")) with false by reflexivity.
  replace (pystr_eqb (lit "ACK") (lit "OPTIONS")) with false by reflexivity.
  replace (pystr_eqb (lit "ACK") (lit "BYE")) with false by reflexivity.
  rewrite pystr_eqb_refl. now destruct (transport self).
Qed.

(** X5. An INVITE whose 100 Trying response was written and whose body
    stage fails, whether in the unpacking of the split data (ValueError),
    in the decoding of the body (UnicodeDecodeError) or in the SDP
    parser: that exception leaves the handler, the 100 Trying response is
    the only message written, and no call is created. *)
Theorem invite_body_failure_escapes
    data (self : Protocol CallT) message t w100 e :
  transport self = Some t ->
  SIPMessage data = Some message ->
  method message = lit "INVITE" ->
  wire_of ADV_IP self message (lit "100 Trying") [] = Ok w100 ->
  offer_of SessionDescription_parse data = Raise e ->
  receive data self = (Raise e, push w100 self).
Proof.
  intros Ht Hparse Hm Hw Hoffer.
  rewrite wire_of_echo in Hw.
  destruct (echo message) as [en|] eqn:He; [|discriminate].
  cbn [rbind] in Hw.
  unfold offer_of in Hoffer.
  unfold push. unfold data_received, dispatch, bind, eval, transport_write.
  rewrite Hparse, Hm, pystr_eqb_refl.
  rewrite create_response_echo, He. handler_simpl.
  rewrite (printed_ok _ Hw). handler_simpl.
  rewrite Ht, Hw. handler_simpl.
  destruct (unpack2 (bytes_split bCRLFCRLF data)) as [hb|e1];
    cbn [rbind] in Hoffer; [|now injection Hoffer as <-].
  destruct (utf8_decode (snd hb)) as [old|e2];
    cbn [rbind] in Hoffer; [|now injection Hoffer as <-].
  rewrite Hoffer. reflexivity.
Qed.

(** X6. When [create_response] raises on the request's headers, that
    is, while it builds the lines of a response, a request of any method
    but ACK makes the handler raise that exception before anything is
    written or changed, connected or not. *)
Theorem unbuildable_response_escapes
    data (self : Protocol CallT) message status body e :
  SIPMessage data = Some message ->
  method message <> lit "ACK" ->
  response_lines ADV_IP self message status body = Raise e ->
  receive data self = (Raise e, self).
Proof.
  intros Hparse Hm Hr.
  rewrite response_lines_echo in Hr.
  destruct (echo message) as [en|e'] eqn:He; [discriminate|].
  cbn [rbind] in Hr. injection Hr as ->.
  unfold data_received, dispatch, bind, eval, ret.
  rewrite Hparse, (pystr_eqb_neq Hm).
  repeat match goal with
         | |- context [pystr_eqb ?a ?b] => destruct (pystr_eqb a b)
         end;
    rewrite create_response_echo, He; reflexivity.
Qed.

(** X7. Before [connection_made] ([transport] is [None]) every call of
    the handler raises and leaves the connection object as it was. *)
Theorem unconnected_always_raises data (self : Protocol CallT) :
  transport self = None ->
  exists e, receive data self = (Raise e, self).
Proof.
  destruct self as [tr d c]. cbn [transport]. intros ->.
  unfold_handler. handler_simpl.
  repeat handler_step; eexists; reflexivity.
Qed.

End Dispatch.

Section Frame.

Variables Sdp CallT Params Flavor : Type.
Variable SIPMessage : bytes -> option SIPMsg.
Variable SessionDescription_parse : pystr -> option Sdp.
Variable params : option Params.
Variable get_ai_flavor : Params -> option Flavor.
Variable Call : pystr -> Sdp -> Flavor -> option CallT.
Variable get_body : CallT -> option pystr.
Variable ADV_IP : pystr.

Local Abbreviation receive :=
  (data_received SIPMessage SessionDescription_parse params get_ai_flavor
     Call get_body ADV_IP).

(** X8. The handler closes the transport only for data that [SIPMessage]
    rejects: after a request that parses, whatever its method and whether
    the handler completes or raises, the transport is still there and its
    closed flag is as before. *)
Theorem parsed_request_never_closes data (self : Protocol CallT) message t :
  transport self = Some t ->
  SIPMessage data = Some message ->
  exists t',
    transport (snd (receive data self)) = Some t' /\
    closed t' = closed t.
Proof.
  destruct self as [tr d c]. cbn [transport]. intros -> Hparse.
  unfold_handler. rewrite Hparse. handler_simpl.
  repeat handler_step; eexists; split; reflexivity.
Qed.

(** X9. One call of the handler only appends to what was written, at
    most two messages, and at most one when the request is not an
    INVITE; for data that does not parse it appends nothing. *)
Theorem at_most_two_writes data (self : Protocol CallT) :
  exists new,
    output (snd (receive data self)) = output self ++ new /\
    List.length new <= 2 /\
    (SIPMessage data = None -> new = []) /\
    (forall message,
       SIPMessage data = Some message ->
       method message <> lit "INVITE" -> List.length new <= 1).
Proof.
  destruct self as [tr d c]. unfold output. unfold_handler.
  handler_simpl.
  destruct (SIPMessage data) as [message|] eqn:Hparse.
  - destruct (pystr_eqb (method message) (lit "INVITE")) eqn:Hm.
    + apply pystr_eqb_eq in Hm.
      repeat handler_step; merge_results;
        first
          [ exists []; split; [try rewrite app_nil_r; reflexivity|];
            split; [simpl; lia|]; split; [discriminate|];
            intros ? [= <-] Hn; now elim Hn
          | eexists [_]; split; [reflexivity|];
            split; [simpl; lia|]; split; [discriminate|];
            intros ? [= <-] Hn; now elim Hn
          | eexists [_; _]; split; [rewrite <- app_assoc; reflexivity|];
            split; [simpl; lia|]; split; [discriminate|];
            intros ? [= <-] Hn; now elim Hn ].
    + repeat handler_step; merge_results;
        first
          [ exists []; split; [try rewrite app_nil_r; reflexivity|];
            split; [simpl; lia|]; split; [discriminate|];
            intros; simpl; lia
          | eexists [_]; split; [reflexivity|];
            split; [simpl; lia|]; split; [discriminate|];
            intros; simpl; lia ].
  - handler_simpl.
    destruct tr as [t|]; handler_simpl;
      (exists []; split; [try rewrite app_nil_r; reflexivity|];
       split; [simpl; lia|]; split; [reflexivity|]; discriminate).
Qed.

(** X10. After a valid INVITE on a connected transport, the stored call
    is the call just created when its creation succeeded, also when
    building the 200 OK response failed afterwards, and the call stored
    before when the creation failed. *)
Theorem invite_stores_created_call
    data (self : Protocol CallT) message sdp t :
  transport self = Some t ->
  valid_invite SIPMessage SessionDescription_parse ADV_IP self data message
    sdp ->
  currentCall (snd (receive data self)) =
    match create_call params get_ai_flavor Call (did self) sdp with
    | Some c => Some c
    | None => currentCall self
    end.
Proof.
  intros Ht (Hparse & Hm & [w100 H100] & hd & body & oldSDP & Hsplit
            & Hdec & Hsdp).
  rewrite wire_of_echo in H100.
  destruct (echo message) as [e|] eqn:He; [|discriminate].
  cbn [rbind] in H100.
  unfold create_call. unfold_handler.
  rewrite Hparse, Hm, pystr_eqb_refl.
  rewrite create_response_echo, He. handler_simpl.
  rewrite (printed_ok _ H100). handler_simpl.
  rewrite Ht, H100. handler_simpl.
  rewrite Hsplit. cbn [snd]. rewrite Hdec, Hsdp. handler_simpl.
  destruct params as [p|]; handler_simpl;
    [destruct (get_ai_flavor p) as [flavor|]; handler_simpl;
     [destruct (Call (did self) sdp flavor) as [c|]; handler_simpl|]|];
    repeat handler_step; reflexivity.
Qed.

(** X11. A call that was created but whose [get_body] raises: the
    exception is caught, the INVITE is answered 100 Trying and then
    500 Internal Server Error, and the call stays stored in
    [currentCall]. *)
Theorem failed_answer_keeps_call
    data (self : Protocol CallT) message sdp t c :
  transport self = Some t ->
  valid_invite SIPMessage SessionDescription_parse ADV_IP self data message
    sdp ->
  create_call params get_ai_flavor Call (did self) sdp = Some c ->
  get_body c = None ->
  exists w100 w500,
    wire_of ADV_IP self message (lit "100 Trying") [] = Ok w100 /\
    wire_of ADV_IP self message (lit "500 Internal Server Error") []
      = Ok w500 /\
    fst (receive data self) = Ok tt /\
    output (snd (receive data self)) = output self ++ [w100; w500] /\
    currentCall (snd (receive data self)) = Some c.
Proof.
  intros Ht (Hparse & Hm & [w100 H100] & hd & body & oldSDP & Hsplit
            & Hdec & Hsdp) Hc Hgb.
  assert (H500 : exists w, wire_of ADV_IP self message
                             (lit "500 Internal Server Error") [] = Ok w).
  { eapply wire_of_other; [exact H100| |];
      apply encodable_lit_ascii; reflexivity. }
  destruct H500 as [w500 H500].
  exists w100, w500. split; [exact H100|]. split; [exact H500|].
  rewrite wire_of_echo in H100, H500.
  destruct (echo message) as [e|] eqn:He; [|discriminate].
  cbn [rbind] in H100, H500.
  unfold create_call in Hc.
  unfold output. unfold_handler.
  rewrite Hparse, Hm, pystr_eqb_refl.
  rewrite create_response_echo, He. handler_simpl.
  rewrite (printed_ok _ H100). handler_simpl.
  rewrite Ht, H100. handler_simpl.
  rewrite Hsplit. cbn [snd]. rewrite Hdec, Hsdp. handler_simpl.
  destruct params as [p|]; [|discriminate]. handler_simpl.
  destruct (get_ai_flavor p) as [flavor|]; [|discriminate]. handler_simpl.
  rewrite Hc. handler_simpl. rewrite Hgb. handler_simpl.
  rewrite create_response_echo, He. handler_simpl.
  rewrite (printed_ok _ H500). handler_simpl.
  rewrite H500. handler_simpl.
  split; [reflexivity|]. split; [now rewrite <- app_assoc | reflexivity].
Qed.

End Frame.

(** ** The length of an encoded text *)

Lemma utf8_encode_cp_length c x :
  utf8_encode_cp c = Ok x ->
  1 <= List.length x /\ (List.length x = 1 <-> (c < 128)%N).
Proof.
  unfold utf8_encode_cp.
  destruct (c <? 128)%N eqn:H1.
  - intros [= <-]. apply N.ltb_lt in H1. simpl. split; [lia|tauto].
  - apply N.ltb_ge in H1.
    repeat match goal with
           | |- (if ?b then _ else _) = _ -> _ => destruct b
           end; intros [= <-]; simpl; (split; [lia|split; [|]; lia]).
Qed.

(** The encoding has as many bytes as the text has code points exactly
    when the text is ASCII. *)
Lemma utf8_encode_length_eq s w :
  utf8_encode s = Ok w ->
  (List.length w = List.length s <-> is_ascii s).
Proof.
  intros Hw. split.
  - revert w Hw. induction s as [|c s IH]; intros w Hw Hlen;
      [constructor|].
    simpl in Hw.
    destruct (utf8_encode_cp c) as [x|] eqn:Hc; simpl in Hw;
      [|discriminate].
    destruct (utf8_encode s) as [y|] eqn:Hs; simpl in Hw; [|discriminate].
    injection Hw as <-. rewrite length_app in Hlen. simpl in Hlen.
    pose proof (utf8_encode_cp_length c Hc) as [H1 H2].
    pose proof (utf8_encode_length s Hs) as H3.
    constructor.
    + apply H2. lia.
    + apply (IH y eq_refl). lia.
  - intros Ha. rewrite (utf8_encode_ascii Ha) in Hw.
    injection Hw as <-. apply length_map.
Qed.

(** ** What [create_response] raises *)

Lemma all_str_raises l e : all_str l = Raise e -> e = TypeError.
Proof.
  induction l as [|v l IH]; simpl; [discriminate|].
  destruct v; simpl; try (now intros [= <-]).
  destruct (all_str l); simpl; [discriminate|].
  intros [= <-]. now apply IH.
Qed.

Lemma index0_raises v e : index0 v = Raise e -> lookup_error e.
Proof.
  unfold lookup_error.
  destruct v as [|[|]| |[|]|]; simpl; intros [= <-]; tauto.
Qed.

Lemma item_raises v k e : item v k = Raise e -> lookup_error e.
Proof.
  unfold lookup_error. destruct v; simpl; try (intros [= <-]; tauto).
  destruct (dict_get d k); [discriminate|]. intros [= <-]; tauto.
Qed.

Lemma as_str_raises v e : as_str v = Raise e -> lookup_error e.
Proof.
  unfold lookup_error. destruct v; simpl; try discriminate;
    intros [= <-]; tauto.
Qed.

Lemma join_val_raises sep v e : join_val sep v = Raise e -> lookup_error e.
Proof.
  unfold lookup_error. destruct v; simpl; try discriminate;
    try (intros [= <-]; tauto).
  destruct (all_str l) eqn:E; simpl; [discriminate|].
  intros [= <-]. apply all_str_raises in E. tauto.
Qed.

Lemma via0_raises request k e : via0 request k = Raise e -> lookup_error e.
Proof.
  unfold via0.
  destruct (index0 (get (headers request) (lit "Via"))) eqn:E; simpl.
  - apply item_raises.
  - intros [= <-]. now apply index0_raises in E.
Qed.

Lemma utf8_encode_raises s e :
  utf8_encode s = Raise e -> e = UnicodeEncodeError.
Proof.
  induction s as [|c s IH]; simpl; [discriminate|].
  destruct (utf8_encode_cp c) as [w|x] eqn:Hc; cbn [rbind].
  - destruct (utf8_encode s) as [ws|y]; cbn [rbind]; [discriminate|].
    intros [= <-]. now apply IH.
  - intros [= <-]. unfold utf8_encode_cp in Hc.
    repeat match type of Hc with
           | (if ?c then _ else _) = _ => destruct c
           end; congruence.
Qed.

Lemma echo_raises request e : echo request = Raise e -> lookup_error e.
Proof.
  unfold echo, hdr. intros H.
  repeat match type of H with
         | rbind ?x _ = _ =>
             let E := fresh "E" in
             destruct x eqn:E; cbn [rbind] in H;
             [| injection H as <-;
                first [ now apply via0_raises in E
                      | now apply as_str_raises in E
                      | now apply join_val_raises in E
                      | now apply item_raises in E ] ]
         end.
  discriminate.
Qed.

Section Building.

Variable CallT : Type.

(** X12. When [create_response] raises, one of two things happened.
    Either a header lookup raised while the lines were built: the
    exception is a TypeError, a KeyError or an IndexError, and the
    request's headers alone decide it, so that the same exception is
    raised for every other status line, body, tag and advertised address.
    Or the lines were built and the text cannot be encoded, so that
    printing it raised UnicodeEncodeError. *)
Theorem create_response_raises_by_headers_or_print
    ADV_IP (self : Protocol CallT) request s b e :
  create_response ADV_IP self request s b = Raise e ->
  (response_lines ADV_IP self request s b = Raise e /\
   (e = TypeError \/ e = KeyError \/ e = IndexError) /\
   forall ADV_IP' (self' : Protocol CallT) s' b',
     create_response ADV_IP' self' request s' b' = Raise e)
  \/
  (exists ls,
     response_lines ADV_IP self request s b = Ok ls /\
     e = UnicodeEncodeError /\
     ~ encodable (str_join CRLF ls)).
Proof.
  unfold create_response.
  destruct (response_lines ADV_IP self request s b) as [ls|e'] eqn:Hls;
    cbn [rbind].
  - intros Hp. right. exists ls. split; [reflexivity|].
    unfold print in Hp.
    destruct (utf8_encode (str_join CRLF ls)) as [w|x] eqn:Hw;
      cbn [rbind] in Hp; [discriminate|].
    injection Hp as <-. split.
    + now apply utf8_encode_raises in Hw.
    + intros [w' Hw']. congruence.
  - intros [= <-]. left. split; [reflexivity|].
    rewrite response_lines_echo in Hls.
    destruct (echo request) as [en|e''] eqn:He; cbn [rbind] in Hls;
      [discriminate|].
    injection Hls as <-. split; [now apply echo_raises in He|].
    intros ADV_IP' self' s' b'.
    fold (create_response ADV_IP' self' request s' b').
    now rewrite create_response_echo, He.
Qed.

Variable ADV_IP : pystr.

(** X13. A request that lacks one of the headers Via, To, From, Call-ID
    and CSeq ([headers.get] gives [None] for it): [create_response]
    raises, whatever the status line and the body; when it is the Via
    header that is missing the exception is TypeError. *)
Theorem missing_header_raises
    (self : Protocol CallT) request status body h :
  In h ["Via"; "To"; "From"; "Call-ID"; "CSeq"]%string ->
  get (headers request) (lit h) = VNone ->
  exists e,
    create_response ADV_IP self request status body = Raise e /\
    (h = "Via"%string -> e = TypeError).
Proof.
  intros Hin Hget. rewrite create_response_echo.
  assert (He : exists e, echo request = Raise e /\
                         (h = "Via"%string -> e = TypeError)).
  { unfold echo, hdr, via0.
    simpl in Hin.
    destruct Hin as [<-|[<-|[<-|[<-|[<-|[]]]]]]; rewrite Hget;
      cbn [index0 item as_str rbind];
      repeat match goal with
             | |- exists e, Raise ?x = Raise e /\ _ =>
                 exists x; split; [reflexivity|];
                 first [ reflexivity | discriminate | intros _; reflexivity ]
             | |- context [rbind ?x _] =>
                 destruct x; cbn [rbind]
             end. }
  destruct He as (e & -> & Hvia). exists e. split; [reflexivity|exact Hvia].
Qed.

(** X14. The Content-Length line of a response states the number of code
    points of the body.  That number is never larger than the number of
    bytes the body takes on the wire, and the two are equal exactly when
    the body is ASCII. *)
Theorem content_length_vs_body_bytes
    (self : Protocol CallT) request status body ls wb :
  response_lines ADV_IP self request status body = Ok ls ->
  utf8_encode body = Ok wb ->
  exists n,
    nth_error ls 8 = Some (lit "Content-Length: " ++ str_of_nat n) /\
    n <= List.length wb /\
    (n = List.length wb <-> is_ascii body).
Proof.
  intros Hls Hwb. exists (List.length body).
  split; [now apply (content_length_counts_code_points _ _ _ _ _ Hls)|].
  split; [now apply utf8_encode_length|].
  rewrite <- (utf8_encode_length_eq body Hwb). split; congruence.
Qed.

(** X15. The bytes written for a response are the encoded head, which
    starts with the status line [SIP/2.0 <status>], then the blank line
    [b"\r\n\r\n"], then the UTF-8 encoding of the body, with nothing
    after it. *)
Theorem response_ends_with_body
    (self : Protocol CallT) request status body w :
  wire_of ADV_IP self request status body = Ok w ->
  exists head whead wb,
    utf8_encode (lit "SIP/2.0 " ++ status ++ CRLF ++ head) = Ok whead /\
    utf8_encode body = Ok wb /\
    w = whead ++ bCRLFCRLF ++ wb.
Proof.
  rewrite wire_of_echo.
  destruct (echo request) as [e|]; cbn [rbind]; [|discriminate].
  unfold response_text. intros Hw.
  exists (echoed_headers ADV_IP (did self) e ++ content_length_line body).
  replace ((lit "SIP/2.0 " ++ status) ++ CRLF ++
           echoed_headers ADV_IP (did self) e ++
           content_length_line body ++ CRLF ++ CRLF ++ body)
    with ((lit "SIP/2.0 " ++ status ++ CRLF ++
           echoed_headers ADV_IP (did self) e ++ content_length_line body)
          ++ (CRLF ++ CRLF) ++ body) in Hw
    by (repeat rewrite <- app_assoc; reflexivity).
  rewrite utf8_encode_app in Hw.
  destruct (utf8_encode (lit "SIP/2.0 " ++ status ++ CRLF ++
              echoed_headers ADV_IP (did self) e ++
              content_length_line body)) as [whead|];
    cbn [rbind] in Hw; [|discriminate].
  rewrite utf8_encode_app in Hw.
  change (utf8_encode (CRLF ++ CRLF)) with (@Ok bytes bCRLFCRLF) in Hw.
  cbn [rbind] in Hw.
  destruct (utf8_encode body) as [wb|]; cbn [rbind] in Hw; [|discriminate].
  injection Hw as <-. exists whead, wb. repeat split.
Qed.

End Building.

Lemma byte_eqb_eq (a b : byte) : byte_eqb a b = true <-> a = b.
Proof.
  unfold byte_eqb. split.
  - apply Byte.byte_dec_bl.
  - apply Byte.byte_dec_lb.
Qed.

(** ** The rtcp filter *)

Lemma filter_all A (p : A -> bool) l :
  (forall x, In x l -> p x = true) -> filter p l = l.
Proof.
  induction l as [|a l IH]; intros H; simpl; [reflexivity|].
  rewrite (H a) by now left. f_equal. apply IH. intros x Hx. apply H.
  now right.
Qed.

Lemma filter_idem A (p : A -> bool) l : filter p (filter p l) = filter p l.
Proof.
  apply filter_all. intros x Hx. now apply filter_In in Hx.
Qed.

(** The lines of a text joined from some of the lines of a text. *)
Lemma split_join_filter (p : pystr -> bool) a s :
  str_split [a] (str_join [a] (filter p (str_split [a] s))) =
  match filter p (str_split [a] s) with
  | [] => [[]]
  | kept => kept
  end.
Proof.
  destruct (filter p (str_split [a] s)) as [|x xs] eqn:Hf; [reflexivity|].
  unfold str_split, str_join. apply (@split_join _ N.eqb N.eqb_eq); [discriminate|].
  rewrite <- Hf. apply Forall_forall. intros y Hy.
  apply filter_In in Hy. destruct Hy as [Hy _].
  pose proof (@split_single_free _ N.eqb N.eqb_eq a s) as Hall.
  rewrite Forall_forall in Hall. now apply Hall.
Qed.

(** X16. The text handed to the SDP parser has, as its lines, the lines
    of the body that do not start with [a=rtcp:], in their order; when no
    line is left it is the empty text, which has one empty line. *)
Theorem strip_rtcp_lines s :
  str_split [LF] (strip_rtcp s) =
  match filter not_rtcp (str_split [LF] s) with
  | [] => [[]]
  | kept => kept
  end.
Proof. unfold strip_rtcp. apply (split_join_filter not_rtcp). Qed.

(** X17. A body none of whose lines starts with [a=rtcp:] reaches the
    SDP parser unchanged. *)
Theorem strip_rtcp_unchanged s :
  (forall line, In line (str_split [LF] s) -> not_rtcp line = true) ->
  strip_rtcp s = s.
Proof.
  intros H. unfold strip_rtcp.
  change (fun line => negb (str_startswith (lit "a=rtcp:") line))
    with not_rtcp.
  rewrite (filter_all _ _ H).
  apply (@join_split _ N.eqb N.eqb_eq). discriminate.
Qed.

(** X18. Filtering twice is filtering once. *)
Theorem strip_rtcp_idempotent s :
  strip_rtcp (strip_rtcp s) = strip_rtcp s.
Proof.
  unfold strip_rtcp at 1.
  change (fun line => negb (str_startswith (lit "a=rtcp:") line))
    with not_rtcp.
  unfold strip_rtcp at 1.
  change (fun line => negb (str_startswith (lit "a=rtcp:") line))
    with not_rtcp.
  rewrite split_join_filter.
  unfold strip_rtcp.
  change (fun line => negb (str_startswith (lit "a=rtcp:") line))
    with not_rtcp.
  destruct (filter not_rtcp (str_split [LF] s)) as [|x xs] eqn:Hf;
    [reflexivity|].
  rewrite <- Hf. now rewrite filter_idem.
Qed.

(** ** The cut at the blank line *)

Section Cut.

Variable A : Type.
Variable eqb : A -> A -> bool.
Hypothesis eqb_eq : forall a b, eqb a b = true <-> a = b.

Lemma unmatched_no_occurrence sep cur l :
  sep <> [] -> unmatched eqb sep cur l -> ~ occurs sep (rev cur).
Proof.
  intros Hsep H (pre & post & Heq).
  specialize (H (List.length pre)).
  assert (Hlen : List.length pre < List.length cur).
  { apply (f_equal (@List.length A)) in Heq.
    rewrite length_rev, !length_app in Heq.
    destruct sep; [congruence|]. simpl in Heq. lia. }
  specialize (H Hlen). rewrite Heq in H.
  rewrite <- !app_assoc in H.
  rewrite skipn_app, skipn_all, Nat.sub_diag in H. simpl in H.
  rewrite startswith_app in H; [discriminate | exact eqb_eq].
Qed.

(** No piece of a split holds the separator. *)
Lemma split_aux_pieces sep n : sep <> [] -> forall l cur,
  List.length l <= n ->
  unmatched eqb sep cur l ->
  Forall (fun p => ~ occurs sep p) (split_aux eqb sep 0 cur l).
Proof.
  intros Hsep. induction n as [|n IH]; intros l cur Hl Hun.
  - destruct l; [|simpl in Hl; lia]. simpl.
    constructor; [|constructor]. eapply unmatched_no_occurrence; eauto.
  - destruct l as [|a l].
    + simpl. constructor; [|constructor].
      eapply unmatched_no_occurrence; eauto.
    + cbn [split_aux].
      destruct (startswith eqb sep (a :: l)) eqn:Hs.
      * constructor; [eapply unmatched_no_occurrence; eauto|].
        rewrite split_aux_skip. apply IH.
        -- rewrite length_skipn. simpl in Hl. lia.
        -- intros i Hi. simpl in Hi. lia.
      * apply IH; [simpl in Hl; lia|].
        intros i Hi. simpl in Hi. simpl rev. rewrite <- app_assoc.
        simpl app.
        destruct (Nat.eq_dec i (List.length cur)) as [->|Hne].
        -- rewrite <- (length_rev cur), skipn_app, skipn_all, Nat.sub_diag.
           exact Hs.
        -- apply Hun. lia.
Qed.

Lemma split_pieces sep l :
  sep <> [] -> Forall (fun p => ~ occurs sep p) (split eqb sep l).
Proof.
  intros Hsep. unfold split. eapply split_aux_pieces; eauto.
  intros i Hi. simpl in Hi. lia.
Qed.

End Cut.

(** X19. When the unpacking at the blank line succeeds, the data is the
    header block, the blank line [b"\r\n\r\n"] and the body, and neither
    the header block nor the body holds a blank line: the data had
    exactly that one. *)
Theorem unpack_cuts_at_the_blank_line data headers body :
  unpack2 (bytes_split bCRLFCRLF data) = Ok (headers, body) ->
  data = headers ++ bCRLFCRLF ++ body /\
  ~ occurs bCRLFCRLF headers /\
  ~ occurs bCRLFCRLF body.
Proof.
  intros H.
  assert (Hsep : bCRLFCRLF <> []) by discriminate.
  pose proof (@join_split _ byte_eqb byte_eqb_eq _ data Hsep) as Hjoin.
  pose proof (@split_pieces _ byte_eqb byte_eqb_eq _ data Hsep) as Hp.
  fold (bytes_split bCRLFCRLF data) in Hjoin, Hp.
  destruct (bytes_split bCRLFCRLF data) as [|h [|b [|]]];
    try discriminate.
  simpl in H. injection H as <- <-.
  split; [now rewrite <- Hjoin|].
  inversion Hp as [|? ? Hh Hp']; subst.
  inversion Hp' as [|? ? Hb _]; subst. now split.
Qed.

Section NoBlankLine.

Variable Sdp : Type.
Variable SessionDescription_parse : pystr -> option Sdp.

(** X20. Data that holds no blank line [b"\r\n\r\n"] at all makes the
    unpacking raise ValueError: the body stage of an INVITE fails before
    the body is decoded or parsed. *)
Theorem no_blank_line_raises data :
  ~ occurs bCRLFCRLF data ->
  offer_of SessionDescription_parse data = Raise ValueError.
Proof.
  intros Hno. unfold offer_of.
  assert (Hsep : bCRLFCRLF <> []) by discriminate.
  pose proof (@join_split _ byte_eqb byte_eqb_eq _ data Hsep) as Hjoin.
  fold (bytes_split bCRLFCRLF data) in Hjoin.
  destruct (bytes_split bCRLFCRLF data) as [|h [|b [|]]];
    try reflexivity.
  exfalso. apply Hno. exists h, b. now rewrite <- Hjoin.
Qed.

End NoBlankLine.

(** ** [generate_sdp] *)

Section Sdp.

Variable CallT : Type.
Variable ADV_IP : pystr.

(** X21. When the advertised address holds no carriage return, the text
    of [generate_sdp] reads back, line by line, as its nine lines: the
    address appears in the origin line only, and the connection line is
    [c=IN IP4 ADV_IP], the name and not the address. *)
Theorem generate_sdp_lines (self : Protocol CallT) :
  ~ In CR ADV_IP ->
  str_split CRLF (generate_sdp ADV_IP self) =
    [ lit "v=0";
      lit "o=- 0 0 IN IP4 " ++ ADV_IP;
      lit "s=AI Voice Connector";
      lit "c=IN IP4 ADV_IP";
      lit "t=0 0";
      lit "m=audio 1234 RTP/AVP 0";
      lit "a=rtpmap:0 PCMU/8000";
      lit "a=sendrecv";
      [] ].
Proof.
  intros Hip. unfold generate_sdp, str_split, str_join, CRLF.
  apply (@split_join _ N.eqb N.eqb_eq); [discriminate|].
  assert (Hlit : forall s, existsb (N.eqb CR) s = false -> ~ In CR s).
  { intros s Hs Hin.
    assert (existsb (N.eqb CR) s = true); [|congruence].
    apply existsb_exists. exists CR. split; [exact Hin|apply N.eqb_refl]. }
  repeat constructor; try (apply Hlit; reflexivity).
  intros Hin. apply in_app_or in Hin. destruct Hin as [Hin|Hin].
  - revert Hin. apply Hlit. reflexivity.
  - now apply Hip.
Qed.

End Sdp.

(** ** The range of [generate_unique_string] *)

Lemma index_of_nth c l :
  In c l -> index_of c l < List.length l /\ nth (index_of c l) l 0%N = c.
Proof.
  induction l as [|x l IH]; intros Hin; [destruct Hin|].
  simpl. destruct (N.eqb x c) eqn:E.
  - apply N.eqb_eq in E. split; [lia|exact E].
  - destruct Hin as [->|Hin]; [rewrite N.eqb_refl in E; discriminate|].
    destruct (IH Hin) as [H1 H2]. split; [lia|exact H2].
Qed.

Lemma is_alnum_characters c : is_alnum c = true -> In c characters.
Proof.
  intros H.
  assert (Hc : (c < 123)%N).
  { unfold is_alnum in H.
    repeat match type of H with
           | (_ || _) = true => apply orb_true_iff in H; destruct H as [H|H]
           | (_ && _) = true => apply andb_true_iff in H; destruct H as [? H]
           end; apply N.leb_le in H; lia. }
  assert (Hall : forallb (fun k => implb (is_alnum k)
                                     (existsb (N.eqb k) characters))
                   (map N.of_nat (seq 0 123)) = true)
    by (vm_compute; reflexivity).
  rewrite forallb_forall in Hall.
  assert (Hin : In c (map N.of_nat (seq 0 123))).
  { apply in_map_iff. exists (N.to_nat c). split; [apply N2Nat.id|].
    apply in_seq. lia. }
  specialize (Hall c Hin). rewrite H in Hall. cbn [implb] in Hall.
  apply existsb_exists in Hall.
  destruct Hall as (x & Hx & Hcx). apply N.eqb_eq in Hcx. now subst x.
Qed.

(** X22. [generate_unique_string] returns exactly the strings of
    [length] letters and digits: every result is one, whatever is drawn,
    and every such string is the result for some outcome of the draws. *)
Theorem generate_unique_string_range n s :
  (exists draw, generate_unique_string draw n = s) <->
  (List.length s = n /\ forallb is_alnum s = true).
Proof.
  split.
  - intros [draw <-]. split.
    + apply generate_unique_string_length.
    + apply generate_unique_string_alnum.
  - intros [<- Hs].
    exists (fun i => index_of (nth i s 0%N) characters).
    unfold generate_unique_string, secrets_choice.
    apply nth_ext with (d := 0%N) (d' := 0%N).
    + now rewrite length_map, length_seq.
    + intros i Hi. rewrite length_map, length_seq in Hi.
      rewrite (nth_indep _ 0%N
                 (nth (index_of (nth 0 s 0%N) characters
                       mod List.length characters) characters 0%N))
        by now rewrite length_map, length_seq.
      rewrite (map_nth (fun i => nth (index_of (nth i s 0%N) characters
                                      mod List.length characters)
                                   characters 0%N) (seq 0 (List.length s)) 0 i).
      rewrite seq_nth by exact Hi. simpl plus.
      assert (Hin : In (nth i s 0%N) characters).
      { apply is_alnum_characters.
        rewrite forallb_forall in Hs. apply Hs. now apply nth_In. }
      destruct (index_of_nth _ _ Hin) as [Hlt Hnth].
      rewrite Nat.mod_small by exact Hlt. exact Hnth.
Qed.

Section Stream.

Variables Sdp CallT Params Flavor : Type.
Variable SIPMessage : bytes -> option SIPMsg.
Variable SessionDescription_parse : pystr -> option Sdp.
Variable params : option Params.
Variable get_ai_flavor : Params -> option Flavor.
Variable Call : pystr -> Sdp -> Flavor -> option CallT.
Variable get_body : CallT -> option pystr.
Variable ADV_IP : pystr.

Local Abbreviation receive :=
  (data_received SIPMessage SessionDescription_parse params get_ai_flavor
     Call get_body ADV_IP).

Local Abbreviation serve :=
  (received_all SIPMessage SessionDescription_parse params get_ai_flavor
     Call get_body ADV_IP).

(** X23. Over any sequence of calls of the handler on one connection
    object, the tag stays the one generated at construction, what was
    written is never removed or reordered, and every message written is a
    response whose To line ends in [;tag=] and that tag. *)
Theorem connection_lifetime_invariant datas (self : Protocol CallT) :
  did (serve datas self) = did self /\
  exists new,
    output (serve datas self) = output self ++ new /\
    forall w, In w new ->
      exists e status body,
        let lines := render ADV_IP (did self) e status body in
        utf8_encode (str_join CRLF lines) = Ok w /\
        nth_error lines 2 =
          Some (lit "To: " ++ e_to e ++ lit ";tag=" ++ did self).
Proof.
  revert self. induction datas as [|d datas IH]; intros self.
  - split; [reflexivity|]. exists []. split; [now rewrite app_nil_r|].
    intros w [].
  - unfold received_all. cbn [fold_left].
    fold (serve datas (snd (receive d self))).
    destruct (IH (snd (receive d self))) as (Hd & new2 & Ho2 & Hn2).
    rewrite did_stable in Hd, Hn2.
    destruct (receive_writes_tagged SIPMessage SessionDescription_parse
                params get_ai_flavor Call get_body ADV_IP d self)
      as (new1 & Ho1 & Hn1).
    split; [exact Hd|].
    exists (new1 ++ new2). split; [now rewrite Ho2, Ho1, app_assoc|].
    intros w Hw. apply in_app_or in Hw. destruct Hw as [Hw|Hw].
    + destruct (Hn1 w Hw) as (m & e & status & body & _ & _ & Henc).
      exists e, status, body. cbv zeta. rewrite join_render.
      split; [exact Henc | reflexivity].
    + now apply Hn2.
Qed.

(** X24. A call of the handler that completes on a request that parsed
    has answered it: it has written exactly two messages when the request
    is an INVITE and exactly one otherwise. *)
Theorem completed_request_was_answered
    data (self : Protocol CallT) message :
  SIPMessage data = Some message ->
  fst (receive data self) = Ok tt ->
  exists new,
    output (snd (receive data self)) = output self ++ new /\
    List.length new =
      if pystr_eqb (method message) (lit "INVITE") then 2 else 1.
Proof.
  destruct self as [tr d c]. unfold output. unfold_handler.
  intros ->. handler_simpl.
  destruct (pystr_eqb (method message) (lit "INVITE")) eqn:Hm.
  - repeat handler_step; intros Hok; try discriminate Hok;
      (eexists [_; _]; split;
       [rewrite <- app_assoc; reflexivity | reflexivity]).
  - repeat handler_step; intros Hok; try discriminate Hok;
      (eexists [_]; split; reflexivity).
Qed.

End Stream.

(** ** Encoding a response, and the unbound name *)

Lemma is_alnum_ascii s : forallb is_alnum s = true -> is_ascii s.
Proof.
  unfold is_ascii. rewrite forallb_forall, Forall_forall.
  intros H c Hc. specialize (H c Hc). unfold is_alnum in H.
  repeat match type of H with
         | (_ || _) = true => apply orb_true_iff in H; destruct H as [H|H]
         | (_ && _) = true => apply andb_true_iff in H; destruct H as [? H]
         end; apply N.leb_le in H; lia.
Qed.

Section Encoding.

Variable CallT : Type.
Variable ADV_IP : pystr.

(** X25. On a connection whose tag came from [__init__], a request
    whose echoed header values are ASCII can always be answered: with an
    ASCII advertised address and status line and a body that UTF-8 can
    encode, [create_response] returns and its text encodes, so the write
    raises no UnicodeEncodeError. *)
Theorem ascii_request_always_encodes
    (self : Protocol CallT) request e status body :
  echo request = Ok e ->
  ascii_echo e ->
  forallb is_alnum (did self) = true ->
  is_ascii ADV_IP ->
  is_ascii status ->
  encodable body ->
  exists w, wire_of ADV_IP self request status body = Ok w.
Proof.
  intros He (H1 & H2 & H3 & H4 & H5 & H6 & H7 & H8) Hdid Hip Hs Hb.
  apply is_alnum_ascii in Hdid.
  rewrite wire_of_echo, He. cbn [rbind].
  change (encodable (response_text ADV_IP (did self) e status body)).
  unfold response_text, echoed_headers, via_line, to_line,
    content_length_line.
  repeat rewrite encodable_app.
  repeat match goal with
         | |- _ /\ _ => split
         end;
    first [ exact Hb
          | apply is_ascii_encodable;
            first [ assumption
                  | apply str_of_nat_ascii
                  | apply is_asciib_spec; reflexivity ] ].
Qed.

End Encoding.

Section Unbound.

Variables Sdp CallT Params Flavor : Type.
Variable SIPMessage : bytes -> option SIPMsg.
Variable SessionDescription_parse : pystr -> option Sdp.
Variable get_ai_flavor : Params -> option Flavor.
Variable Call : pystr -> Sdp -> Flavor -> option CallT.
Variable get_body : CallT -> option pystr.
Variable ADV_IP : pystr.

(** X26. In the module as it is written, where nothing binds the global
    name [params], the evaluation of [get_ai_flavor(params)] raises
    NameError inside the [try]: every valid INVITE on a connected
    transport is answered 100 Trying and then 500 Internal Server Error,
    never 200 OK, no call is created and [currentCall] stays as it
    was. *)
Theorem unbound_params_always_500
    data (self : Protocol CallT) message sdp t :
  transport self = Some t ->
  valid_invite SIPMessage SessionDescription_parse ADV_IP self data message
    sdp ->
  exists w100 w500,
    wire_of ADV_IP self message (lit "100 Trying") [] = Ok w100 /\
    wire_of ADV_IP self message (lit "500 Internal Server Error") []
      = Ok w500 /\
    data_received SIPMessage SessionDescription_parse (@None Params)
      get_ai_flavor Call get_body ADV_IP data self =
      (Ok tt, push w500 (push w100 self)).
Proof.
  intros Ht (Hparse & Hm & [w100 H100] & hd & body & oldSDP & Hsplit
            & Hdec & Hsdp).
  assert (H500 : exists w, wire_of ADV_IP self message
                             (lit "500 Internal Server Error") [] = Ok w).
  { eapply wire_of_other; [exact H100| |];
      apply encodable_lit_ascii; reflexivity. }
  destruct H500 as [w500 H500].
  exists w100, w500. split; [exact H100|]. split; [exact H500|].
  rewrite wire_of_echo in H100, H500.
  destruct (echo message) as [e|] eqn:He; [|discriminate].
  cbn [rbind] in H100, H500.
  unfold push. unfold_handler.
  rewrite Hparse, Hm, pystr_eqb_refl.
  rewrite create_response_echo, He. handler_simpl.
  rewrite (printed_ok _ H100). handler_simpl.
  rewrite Ht, H100. handler_simpl.
  rewrite Hsplit. cbn [snd]. rewrite Hdec, Hsdp. handler_simpl.
  rewrite create_response_echo, He. handler_simpl.
  rewrite (printed_ok _ H500). handler_simpl.
  rewrite H500. handler_simpl. reflexivity.
Qed.

End Unbound.

(** ** More instances on the sample requests *)

(** Bytes that are no SIP message close the transport. *)
Lemma noise_closes_transport :
  fst (Probe.receive Sample.get_body Probe.noise Run.fresh) = Ok tt /\
  transport (snd (Probe.receive Sample.get_body Probe.noise Run.fresh)) =
    Some {| written := []; closed := true |} /\
  did (snd (Probe.receive Sample.get_body Probe.noise Run.fresh)) =
    did Run.fresh /\
  currentCall (snd (Probe.receive Sample.get_body Probe.noise Run.fresh)) =
    currentCall Run.fresh.
Proof.
  unfold Probe.receive.
  apply unparsable_data_closes_transport
    with (t := {| written := []; closed := false |});
    (vm_compute; reflexivity).
Defined.

(** The OPTIONS request [opt1] is answered 200 OK. *)
Lemma options_opt_replies_ok :
  Sample.receive (Some tt) Run.options_opt Run.fresh =
    (Ok tt,
     push (Run.encoded (Run.reply "200 OK" "OPTIONS" "opt1" Sample.to_plain))
       Run.fresh).
Proof.
  unfold Sample.receive.
  eapply options_replies_ok;
    [ vm_compute; reflexivity
    | vm_compute; reflexivity
    | vm_compute; reflexivity
    | vm_compute; reflexivity ].
Defined.

(** The REGISTER request is answered 501 Not Implemented. *)
Lemma register_not_implemented :
  Probe.receive Sample.get_body Probe.register Run.fresh =
    (Ok tt,
     push (Run.encoded (Run.reply "501 Not Implemented" "REGISTER" "reg1"
                          Sample.to_plain))
       Run.fresh).
Proof.
  unfold Probe.receive.
  eapply unknown_method_not_implemented;
    [ vm_compute; reflexivity
    | vm_compute; reflexivity
    | vm_compute; intuition discriminate
    | vm_compute; reflexivity ].
Defined.

(** The ACK for [abc123], on the established connection and before
    [connection_made]. *)
Lemma ack_abc_raises :
  Sample.receive (Some tt) Run.ack_abc Run.established =
    (Raise UnboundLocalError, Run.established) /\
  Sample.receive (Some tt) Run.ack_abc Probe.unconnected =
    (Raise AttributeError, Probe.unconnected).
Proof.
  unfold Sample.receive. split.
  - refine (ack_always_raises _ _ _ _ _ _ _ Run.ack_abc Run.established _ _);
      (vm_compute; reflexivity).
  - refine (ack_always_raises _ _ _ _ _ _ _ Run.ack_abc Probe.unconnected
              _ _);
      (vm_compute; reflexivity).
Defined.

(** The INVITE whose body is not UTF-8: UnicodeDecodeError after the
    100 Trying response. *)
Lemma invite_latin1_escapes :
  Probe.receive Sample.get_body Probe.invite_latin1 Run.fresh =
    (Raise UnicodeDecodeError,
     push (Run.encoded (Run.reply "100 Trying" "INVITE" "abc123"
                          Sample.to_plain))
       Run.fresh).
Proof.
  unfold Probe.receive.
  eapply invite_body_failure_escapes;
    [ vm_compute; reflexivity
    | vm_compute; reflexivity
    | vm_compute; reflexivity
    | vm_compute; reflexivity
    | vm_compute; reflexivity ].
Defined.

(** The OPTIONS request without a Via header: TypeError, nothing
    written. *)
Lemma options_no_via_escapes :
  Probe.receive Sample.get_body Probe.options_no_via Run.fresh =
    (Raise TypeError, Run.fresh).
Proof.
  unfold Probe.receive.
  eapply unbuildable_response_escapes with (status := lit "200 OK")
                                           (body := []);
    [ vm_compute; reflexivity
    | vm_compute; discriminate
    | vm_compute; reflexivity ].
Defined.

(** An OPTIONS request before [connection_made]. *)
Lemma unconnected_options_raises :
  exists e,
    Sample.receive (Some tt) Run.options_opt Probe.unconnected =
      (Raise e, Probe.unconnected).
Proof.
  unfold Sample.receive.
  apply unconnected_always_raises. vm_compute. reflexivity.
Defined.

(** The INVITE for [abc123] leaves the transport open. *)
Lemma invite_abc_keeps_open :
  exists t',
    transport (snd (Sample.receive (Some tt) Run.invite_abc Run.fresh)) =
      Some t' /\
    closed t' = false.
Proof.
  unfold Sample.receive.
  eapply parsed_request_never_closes
    with (t := {| written := []; closed := false |});
    [ vm_compute; reflexivity | vm_compute; reflexivity ].
Defined.

(** The INVITE for [abc123] is a valid INVITE. *)
Lemma invite_abc_valid :
  valid_invite Sample.SIPMessage Sample.SessionDescription_parse
    Sample.ADV_IP Run.fresh Run.invite_abc Run.invite_request
    Run.offer_text.
Proof.
  split; [vm_compute; reflexivity|]. split; [reflexivity|].
  split; [eexists; vm_compute; reflexivity|].
  do 3 eexists. split; [vm_compute; reflexivity|].
  split; vm_compute; reflexivity.
Defined.

(** The INVITE for [abc123] stores the call created with the tag and the
    offer. *)
Lemma invite_abc_stores_call :
  currentCall (snd (Sample.receive (Some tt) Run.invite_abc Run.fresh)) =
    Some {| Sample.call_tag := lit Run.tag;
            Sample.call_offer := Run.offer_text |}.
Proof.
  unfold Sample.receive.
  exact (invite_stores_created_call (Some tt) Sample.get_ai_flavor
           Sample.Call Sample.get_body (self := Run.fresh)
           (t := {| written := []; closed := false |})
           eq_refl invite_abc_valid).
Defined.

(** The INVITE for [abc123] when [get_body] raises. *)
Lemma invite_abc_failed_answer :
  exists w100 w500,
    wire_of Sample.ADV_IP Run.fresh Run.invite_request (lit "100 Trying") []
      = Ok w100 /\
    wire_of Sample.ADV_IP Run.fresh Run.invite_request
      (lit "500 Internal Server Error") [] = Ok w500 /\
    fst (Probe.receive Probe.get_body Run.invite_abc Run.fresh) = Ok tt /\
    output (snd (Probe.receive Probe.get_body Run.invite_abc Run.fresh)) =
      output Run.fresh ++ [w100; w500] /\
    currentCall (snd (Probe.receive Probe.get_body Run.invite_abc Run.fresh))
      = Some {| Sample.call_tag := lit Run.tag;
                Sample.call_offer := Run.offer_text |}.
Proof.
  unfold Probe.receive.
  assert (Hvalid : valid_invite Probe.SIPMessage
                     Sample.SessionDescription_parse Sample.ADV_IP Run.fresh
                     Run.invite_abc Run.invite_request Run.offer_text).
  { split; [vm_compute; reflexivity|]. split; [reflexivity|].
    split; [eexists; vm_compute; reflexivity|].
    do 3 eexists. split; [vm_compute; reflexivity|].
    split; vm_compute; reflexivity. }
  exact (failed_answer_keeps_call (Some tt) Sample.get_ai_flavor
           Sample.Call Probe.get_body (self := Run.fresh)
           (t := {| written := []; closed := false |})
           eq_refl Hvalid eq_refl eq_refl).
Defined.

(** The request without a Via header: TypeError for every response.
    The INVITE for [abc123] answered with a body that is a lone
    surrogate: the lines are built and the print raises. *)
Lemma no_via_or_surrogate_raises :
  (create_response Sample.ADV_IP Run.fresh Probe.no_via (lit "200 OK") [] =
     Raise TypeError /\
   create_response Sample.ADV_IP Run.established Probe.no_via
     (lit "501 Not Implemented") Run.answer_cafe = Raise TypeError) /\
  (create_response Sample.ADV_IP Run.fresh Run.invite_request (lit "200 OK")
     [55296%N] = Raise UnicodeEncodeError /\
   exists ls,
     response_lines Sample.ADV_IP Run.fresh Run.invite_request
       (lit "200 OK") [55296%N] = Ok ls /\
     ~ encodable (str_join CRLF ls)).
Proof.
  assert (H1 : create_response Sample.ADV_IP Run.fresh Probe.no_via
                 (lit "200 OK") [] = Raise TypeError)
    by (vm_compute; reflexivity).
  assert (H2 : create_response Sample.ADV_IP Run.fresh Run.invite_request
                 (lit "200 OK") [55296%N] = Raise UnicodeEncodeError)
    by (vm_compute; reflexivity).
  split; (split; [assumption|]).
  - destruct (create_response_raises_by_headers_or_print _ _ _ _ _ H1)
      as [(_ & _ & Hall) | (ls & _ & Hx & _)]; [apply Hall | discriminate Hx].
  - destruct (create_response_raises_by_headers_or_print _ _ _ _ _ H2)
      as [(_ & [Hx|[Hx|Hx]] & _) | (ls & Hls & _ & Hno)];
      try discriminate Hx.
    exists ls. split; [exact Hls | exact Hno].
Defined.

(** The request without a Via header has no Via header for
    [create_response]. *)
Lemma no_via_missing_header :
  get (headers Probe.no_via) (lit "Via") = VNone /\
  create_response Sample.ADV_IP Run.fresh Probe.no_via (lit "200 OK") []
    = Raise TypeError.
Proof.
  assert (Hget : get (headers Probe.no_via) (lit "Via") = VNone)
    by (vm_compute; reflexivity).
  split; [exact Hget|].
  destruct (@missing_header_raises _ Sample.ADV_IP Run.fresh Probe.no_via
              (lit "200 OK") [] "Via"%string (or_introl eq_refl) Hget)
    as (e & He & Hvia).
  rewrite He, (Hvia eq_refl). reflexivity.
Defined.

(** The 200 OK response with the body [s=caf] and U+00E9: six code
    points, seven bytes. *)
Lemma cafe_content_length :
  exists n,
    nth_error Probe.cafe_lines 8 =
      Some (lit "Content-Length: " ++ str_of_nat n) /\
    n <= List.length Probe.cafe_bytes /\
    (n = List.length Probe.cafe_bytes <-> is_ascii Run.answer_cafe).
Proof.
  eapply content_length_vs_body_bytes
    with (self := Run.fresh) (request := Run.invite_request)
         (status := lit "200 OK") (ADV_IP := Sample.ADV_IP);
    [ vm_compute; reflexivity | vm_compute; reflexivity ].
Defined.

(** The 200 OK response to the BYE for [abc123] ends with the blank
    line. *)
Lemma bye_ok_ends_with_body :
  exists head whead wb,
    utf8_encode (lit "SIP/2.0 " ++ lit "200 OK" ++ CRLF ++ head) = Ok whead /\
    utf8_encode [] = Ok wb /\
    Run.bye_ok = whead ++ bCRLFCRLF ++ wb.
Proof.
  eapply response_ends_with_body
    with (self := Run.fresh) (request := Run.bye_request)
         (ADV_IP := Sample.ADV_IP).
  vm_compute. reflexivity.
Defined.

(** The sample offer has no [a=rtcp:] line. *)
Lemma offer_text_unchanged : strip_rtcp Run.offer_text = Run.offer_text.
Proof.
  apply strip_rtcp_unchanged.
  assert (H : forallb not_rtcp (str_split [LF] Run.offer_text) = true)
    by (vm_compute; reflexivity).
  rewrite forallb_forall in H. exact H.
Defined.

(** The INVITE for [abc123] is cut into its header block and the offer. *)
Lemma invite_abc_cut :
  Run.invite_abc = header_block Run.invite_abc ++ bCRLFCRLF ++ Sample.offer /\
  ~ occurs bCRLFCRLF (header_block Run.invite_abc) /\
  ~ occurs bCRLFCRLF Sample.offer.
Proof.
  apply unpack_cuts_at_the_blank_line. vm_compute. reflexivity.
Defined.

(** A request line alone. *)
Lemma no_blank_line_value_error :
  offer_of Sample.SessionDescription_parse Probe.no_blank_line =
    Raise ValueError.
Proof.
  apply no_blank_line_raises.
  assert (Hsep : bCRLFCRLF <> []) by discriminate.
  pose proof (@split_pieces _ byte_eqb byte_eqb_eq _ Probe.no_blank_line Hsep)
    as Hp.
  assert (Hs : split byte_eqb bCRLFCRLF Probe.no_blank_line =
               [Probe.no_blank_line]) by (vm_compute; reflexivity).
  rewrite Hs in Hp. now inversion Hp.
Defined.

(** The SDP generated for the sample address. *)
Lemma sample_sdp_lines :
  str_split CRLF (generate_sdp Sample.ADV_IP Run.fresh) =
    [ lit "v=0";
      lit "o=- 0 0 IN IP4 " ++ Sample.ADV_IP;
      lit "s=AI Voice Connector";
      lit "c=IN IP4 ADV_IP";
      lit "t=0 0";
      lit "m=audio 1234 RTP/AVP 0";
      lit "a=rtpmap:0 PCMU/8000";
      lit "a=sendrecv";
      [] ].
Proof.
  apply generate_sdp_lines.
  intros Hin.
  assert (H : existsb (N.eqb CR) Sample.ADV_IP = false) by reflexivity.
  assert (H' : existsb (N.eqb CR) Sample.ADV_IP = true).
  { apply existsb_exists. exists CR. split; [exact Hin|reflexivity]. }
  congruence.
Defined.

(** The INVITE for [abc123] completes, with two messages written. *)
Lemma invite_abc_was_answered :
  exists new,
    output (snd (Sample.receive (Some tt) Run.invite_abc Run.fresh)) =
      output Run.fresh ++ new /\
    List.length new = 2.
Proof.
  unfold Sample.receive.
  eapply completed_request_was_answered with (message := Run.invite_request);
    [ vm_compute; reflexivity | vm_compute; reflexivity ].
Defined.

(** The INVITE for [abc123] with [params] unbound. *)
Lemma invite_abc_unbound_params :
  exists w100 w500,
    wire_of Sample.ADV_IP Run.fresh Run.invite_request (lit "100 Trying") []
      = Ok w100 /\
    wire_of Sample.ADV_IP Run.fresh Run.invite_request
      (lit "500 Internal Server Error") [] = Ok w500 /\
    Sample.receive None Run.invite_abc Run.fresh =
      (Ok tt, push w500 (push w100 Run.fresh)).
Proof.
  unfold Sample.receive.
  exact (unbound_params_always_500 Sample.get_ai_flavor Sample.Call
           Sample.get_body (self := Run.fresh)
           (t := {| written := []; closed := false |})
           eq_refl invite_abc_valid).
Defined.

(** The OPTIONS request [opt1] on a connection as [__init__] and
    [connection_made] leave it can be answered. *)
Lemma options_opt_encodes :
  exists w,
    wire_of Sample.ADV_IP
      (connection_made Probe.unconnected {| written := []; closed := false |})
      (Sample.request "OPTIONS" "opt1" Sample.to_plain) (lit "200 OK") []
    = Ok w.
Proof.
  eapply ascii_request_always_encodes;
    [ vm_compute; reflexivity
    | repeat split; apply is_asciib_spec; reflexivity
    | apply generate_unique_string_alnum
    | apply is_asciib_spec; reflexivity
    | apply is_asciib_spec; reflexivity
    | exists []; reflexivity ].
Defined.
